(** * plugins/inline.py: the inline-query handler

    A shallow embedding of [inline_users], [answer] and [get_reply_markup]
    of plugins/inline.py, and the properties of the handler stated by the
    specification.

    Conventions of the model.
    - A Python [str] is a [string]: the sequence of bytes of its UTF-8
      encoding.  The bar and the braces never occur inside a multi-byte
      sequence, so splitting and template scanning work on the bytes.
    - [str.strip] is written out in full: the blanks of [str.isspace] are a
      fixed list of 29 characters, 10 of them ASCII.  [str.lower], [int] and
      [str.format] are written out where they depend on no table of the
      interpreter: on ASCII text for the first two, on templates of literal
      text and plain fields for the third.  Beyond that they are what the interpreter's Unicode
      database and formatter make them: these are taken as the record
      [Python], a field of the outside world.
    - A Python [int] is a [Z].
    - [None]-able values are [option]s.
    - The coroutine [answer] is sequential code: every [await] is a call whose
      result is consumed before the next statement runs.  It is modelled in a
      state-and-exception monad whose state records the calls made to the
      outside world, in order, and the keyboard objects allocated. *)

From Stdlib Require Import ZArith List String Ascii Bool Lia DecimalString DecimalPos.
Import ListNotations.
Local Open Scope string_scope.
Local Open Scope Z_scope.

(** ** Python strings *)

Module PyStr.

(** [str.isspace] on one ASCII character: TAB, LF, VT, FF, CR, the four
    separators FS, GS, RS, US, and the blank. *)
Definition is_space (c : ascii) : bool :=
  let n := N_of_ascii c in
  ((9 <=? n) && (n <=? 13) || (28 <=? n) && (n <=? 32))%N.

(** [str.isspace] on a character of two bytes: U+0085 (C2 85) and U+00A0
    (C2 A0). *)
Definition is_space2 (a b : ascii) : bool :=
  let x := N_of_ascii a in
  let y := N_of_ascii b in
  ((x =? 194) && ((y =? 133) || (y =? 160)))%N.

(** [str.isspace] on a character of three bytes: U+1680 (E1 9A 80), U+2000
    to U+200A (E2 80 80 to E2 80 8A), U+2028, U+2029 and U+202F (E2 80 A8,
    E2 80 A9, E2 80 AF), U+205F (E2 81 9F) and U+3000 (E3 80 80).  No
    character of four bytes is a blank. *)
Definition is_space3 (a b c : ascii) : bool :=
  let x := N_of_ascii a in
  let y := N_of_ascii b in
  let z := N_of_ascii c in
  ((x =? 225) && (y =? 154) && (z =? 128)
   || (x =? 226) && (y =? 128)
      && ((128 <=? z) && (z <=? 138) || (z =? 168) || (z =? 169) || (z =? 175))
   || (x =? 226) && (y =? 129) && (z =? 159)
   || (x =? 227) && (y =? 128) && (z =? 128))%N.

(** The first byte of a blank: an ASCII blank, C2, E1, E2 or E3.  No other
    byte of a blank is one. *)
Definition blank_lead (c : ascii) : bool :=
  let n := N_of_ascii c in
  (is_space c || (n =? 194) || (n =? 225) || (n =? 226) || (n =? 227))%N.

Definition is_upper (c : ascii) : bool :=
  let n := N_of_ascii c in ((65 <=? n) && (n <=? 90))%N.

Definition lower_char (c : ascii) : ascii :=
  if is_upper c then ascii_of_N (N_of_ascii c + 32) else c.

(** Every character of the text is ASCII. *)
Fixpoint is_ascii (s : string) : bool :=
  match s with
  | EmptyString => true
  | String c t => (N_of_ascii c <? 128)%N && is_ascii t
  end.

(** [s.lower()] on ASCII text. *)
Fixpoint lower_ascii (s : string) : string :=
  match s with
  | EmptyString => EmptyString
  | String c t => String (lower_char c) (lower_ascii t)
  end.

(** [s.lstrip()]: the blanks at the start are dropped, one character of one,
    two or three bytes at a time. *)
Fixpoint py_lstrip (s : string) : string :=
  match s with
  | EmptyString => EmptyString
  | String a t =>
      if is_space a then py_lstrip t
      else
        match t with
        | String b t2 =>
            if is_space2 a b then py_lstrip t2
            else
              match t2 with
              | String c t3 => if is_space3 a b c then py_lstrip t3 else s
              | EmptyString => s
              end
        | EmptyString => s
        end
  end.

(** [s.rstrip()]: the text is kept up to the point from which only blanks
    follow. *)
Fixpoint py_rstrip (s : string) : string :=
  match s with
  | EmptyString => EmptyString
  | String a t =>
      match py_lstrip s with
      | EmptyString => EmptyString
      | _ => String a (py_rstrip t)
      end
  end.

(** [s.strip()] *)
Definition py_strip (s : string) : string := py_rstrip (py_lstrip s).

(** The text starts, or ends, with an ASCII blank. *)
Definition starts_with_space (s : string) : bool :=
  match s with
  | EmptyString => false
  | String c _ => is_space c
  end.

Fixpoint ends_with_space (s : string) : bool :=
  match s with
  | EmptyString => false
  | String c EmptyString => is_space c
  | String _ t => ends_with_space t
  end.

(** [c in s] for a one-character string [c] *)
Fixpoint py_in (c : ascii) (s : string) : bool :=
  match s with
  | EmptyString => false
  | String d t => if Ascii.eqb d c then true else py_in c t
  end.

(** [s.split(c, maxsplit=1)] for a one-character separator [c]: the list
    has two elements when [c] occurs in [s] and one otherwise. *)
Fixpoint py_split1 (c : ascii) (s : string) : list string :=
  match s with
  | EmptyString => [EmptyString]
  | String d t =>
      if Ascii.eqb d c then [EmptyString; t]
      else match py_split1 c t with
           | h :: r => String d h :: r
           | [] => [String d EmptyString]
           end
  end.

(** Truth value of a string: the empty string is false. *)
Definition truthy (s : string) : bool :=
  match s with EmptyString => false | _ => true end.

(** [str(n)] for an integer *)
Definition of_Z (n : Z) : string := NilZero.string_of_int (Z.to_int n).

(** [str(x)] (and [f"{x}"]) for a value that is a string or [None] *)
Definition of_opt (o : option string) : string :=
  match o with Some s => s | None => "None" end.

(** [x in s] for strings: [x] occurs in [s] as a contiguous piece. *)
Fixpoint is_prefix (x s : string) : bool :=
  match x, s with
  | EmptyString, _ => true
  | String a x', String b s' => Ascii.eqb a b && is_prefix x' s'
  | String _ _, EmptyString => false
  end.

Fixpoint occurs (x s : string) : bool :=
  is_prefix x s ||
  match s with
  | EmptyString => false
  | String _ s' => occurs x s'
  end.

End PyStr.
Import PyStr.

(** ** [int(s)] on an ASCII string *)

Module PyInt.

Definition is_digit (c : ascii) : bool :=
  let n := N_of_ascii c in ((48 <=? n) && (n <=? 57))%N.

Definition digit_val (c : ascii) : Z := Z.of_N (N_of_ascii c) - 48.

(** The body of a decimal literal: digits, with single underscores allowed
    between two digits.  [prev] tells whether the previous character was a
    digit (an underscore needs one before it, and so does the end of the
    literal), [acc] is the value read so far. *)
Fixpoint digits (prev : bool) (acc : Z) (s : string) : option Z :=
  match s with
  | EmptyString => if prev then Some acc else None
  | String c t =>
      if is_digit c then digits true (10 * acc + digit_val c) t
      else if Ascii.eqb c "_" then
        (if prev then digits false acc t else None)
      else None
  end.

(** An optional sign and the literal. *)
Definition signed (s : string) : option Z :=
  match s with
  | String "+" t => digits false 0 t
  | String "-" t => option_map Z.opp (digits false 0 t)
  | _ => digits false 0 s
  end.

(** The blanks [int] skips around the literal of an ASCII string: TAB, LF,
    VT, FF, CR and the blank (the separators FS to US are not among them). *)
Definition is_blank (c : ascii) : bool :=
  let n := N_of_ascii c in ((9 <=? n) && (n <=? 13) || (n =? 32))%N.

Fixpoint skip_blanks (s : string) : string :=
  match s with
  | EmptyString => EmptyString
  | String c t => if is_blank c then skip_blanks t else s
  end.

Fixpoint drop_last_blanks (s : string) : string :=
  match s with
  | EmptyString => EmptyString
  | String c t =>
      match drop_last_blanks t with
      | EmptyString => if is_blank c then EmptyString else String c EmptyString
      | t' => String c t'
      end
  end.

(** [int(s)] on ASCII text: blanks around the literal are dropped; [None]
    stands for [ValueError: invalid literal for int() with base 10].  The
    limit the interpreter may set on the number of digits is far above the 64
    bytes of an offset token and is left out. *)
Definition int_ascii (s : string) : option Z :=
  signed (drop_last_blanks (skip_blanks s)).

End PyInt.
Import PyInt.

(** ** Exceptions and results *)

(** The exception classes the handler can meet.  [CancelledError] derives
    from [BaseException] only; the others derive from [Exception]. *)
Inductive exn : Type :=
| QueryIdInvalid
| ValueError
| KeyError (key : string)
| IndexError
| OtherException (msg : string)
| CancelledError.

(** [isinstance(e, Exception)] *)
Definition is_Exception (e : exn) : bool :=
  match e with CancelledError => false | _ => true end.

Definition is_QueryIdInvalid (e : exn) : bool :=
  match e with QueryIdInvalid => true | _ => false end.

(** What a call does: it returns a value or raises.  [Unmodelled] is the
    answer of the template scanner below on a replacement field it does not
    render itself: [py_format] then turns to the interpreter. *)
Inductive result (A : Type) : Type :=
| Ok (a : A)
| Raise (e : exn)
| Unmodelled.
Arguments Ok {A} a.
Arguments Raise {A} e.
Arguments Unmodelled {A}.

(** ** [str.format] with keyword arguments only, on plain templates *)

Module PyFormat.

Definition kwargs := list (string * string).

Fixpoint lookup (k : string) (kw : kwargs) : option string :=
  match kw with
  | [] => None
  | (k', v) :: r => if String.eqb k' k then Some v else lookup k r
  end.

Fixpoint all_digits (s : string) : bool :=
  match s with
  | EmptyString => true
  | String c t => is_digit c && all_digits t
  end.

(** The value of the replacement field named [name].  An empty name is the
    automatic index 0 and a name of digits is a positional index: there is
    no positional argument, so both raise [IndexError] (an index too long
    for a machine word is left to the interpreter).  Any other name is
    looked up in the keyword arguments. *)
Definition field_value (name : string) (kw : kwargs) : result string :=
  if all_digits name then
    (if (String.length name <=? 18)%nat then Raise IndexError else Unmodelled)
  else match lookup name kw with
       | Some v => Ok v
       | None => Raise (KeyError name)
       end.

(** Characters that make a replacement field more than a plain name:
    the marks of a conversion, a format specification, an attribute, an index
    and a nested field, and any character beyond ASCII (a digit of another
    script counts as a digit of an index). *)
Definition ends_plain_name (c : ascii) : bool :=
  Ascii.eqb c "!" || Ascii.eqb c ":" || Ascii.eqb c "." || Ascii.eqb c "["
  || Ascii.eqb c "{" || (128 <=? N_of_ascii c)%N.

(** Where the scanner is: in literal text, or inside a replacement field
    whose name read so far is [name]. *)
Inductive mode : Type :=
| Text
| Field (name : string).

(** The template is rendered from left to right; [out] is the text
    rendered so far.  ["{{"] and ["}}"] are the escapes of the braces; a
    lone ["}"] in text and a field left open raise [ValueError]. *)
Fixpoint render (m : mode) (t : string) (kw : kwargs) (out : string)
  : result string :=
  match t with
  | EmptyString =>
      match m with
      | Text => Ok out
      | Field _ => Raise ValueError
      end
  | String c t' =>
      match m with
      | Text =>
          if Ascii.eqb c "{" then
            match t' with
            | String c' t'' =>
                if Ascii.eqb c' "{" then render Text t'' kw (out ++ "{")
                else render (Field EmptyString) t' kw out
            | EmptyString => render (Field EmptyString) t' kw out
            end
          else if Ascii.eqb c "}" then
            match t' with
            | String c' t'' =>
                if Ascii.eqb c' "}" then render Text t'' kw (out ++ "}")
                else Raise ValueError
            | EmptyString => Raise ValueError
            end
          else render Text t' kw (out ++ String c EmptyString)
      | Field name =>
          if Ascii.eqb c "}" then
            match field_value name kw with
            | Ok v => render Text t' kw (out ++ v)
            | Raise e => Raise e
            | Unmodelled => Unmodelled
            end
          else if ends_plain_name c then Unmodelled
          else render (Field (name ++ String c EmptyString)) t' kw out
      end
  end.

(** [template.format(...)] with the keyword arguments [kw], as far as the
    scanner goes. *)
Definition format_plain (template : string) (kw : kwargs) : result string :=
  render Text template kw EmptyString.

End PyFormat.
Import PyFormat.

(** ** The interpreter *)

(** What the handler gets from tables of the interpreter that are not in
    this repository: its Unicode database and its formatter.
    - [str_lower s] is [s.lower()] for a text [s] with a character beyond
      ASCII.  Whatever the version of the database, lowering leaves no ASCII
      capital, and puts no ASCII blank at an end of the text that had none.
    - [str_int s] is [int(s)] for such a text; [None] is [ValueError].
    - [str_format template kw] is [template.format(...)] for a template
      with a replacement field that is more than a plain name.  The arguments
      are strings: whatever the formatter raises on them ([ValueError],
      [KeyError], [IndexError], [AttributeError], [TypeError]) is an
      [Exception]. *)
Record Python : Type := {
  str_lower : string -> string;
  str_int : string -> option Z;
  str_format : string -> kwargs -> result string;
  str_lower_no_capital :
    forall s c, py_in c (str_lower s) = true -> is_upper c = false;
  str_lower_start :
    forall s, starts_with_space s = false -> starts_with_space (str_lower s) = false;
  str_lower_end :
    forall s, ends_with_space s = false -> ends_with_space (str_lower s) = false;
  str_format_raises :
    forall template kw e, str_format template kw = Raise e -> is_Exception e = true
}.

(** [s.lower()] *)
Definition py_lower (u : Python) (s : string) : string :=
  if is_ascii s then lower_ascii s else str_lower u s.

(** [int(s)]; [None] is [ValueError]. *)
Definition py_int (u : Python) (s : string) : option Z :=
  if is_ascii s then int_ascii s else str_int u s.

(** [template.format(...)] with the keyword arguments [kw] *)
Definition py_format (u : Python) (template : string) (kw : kwargs)
  : result string :=
  match format_plain template kw with
  | Unmodelled => str_format u template kw
  | rendered => rendered
  end.

(** ** Data *)

(** [query.from_user] *)
Module User.
Record t : Type := { id : Z }.
End User.

(** The inline query event.  [offset] is [None] when the token is absent. *)
Record InlineQuery : Type := {
  from_user : option User.t;
  query : string;
  offset : option string
}.

(** A record of the file index (database.ia_filterdb), read only. *)
Module Media.
Record t : Type := {
  file_id : string;
  file_name : option string;
  file_size : option Z;
  file_type : option string;
  caption : option string
}.
End Media.

Record InlineKeyboardButton : Type := {
  text : string;
  url : option string;
  switch_inline_query_current_chat : option string
}.

Record InlineKeyboardMarkup : Type := {
  inline_keyboard : list (list InlineKeyboardButton)
}.

(** A reference to a keyboard object: its position in the store of the
    keyboards allocated so far. *)
Definition markup_ref : Type := nat.

Record InlineQueryResultCachedDocument : Type := {
  title : option string;
  document_file_id : string;
  caption : string;
  description : string;
  reply_markup : markup_ref
}.

(** The keyword arguments of one [query.answer(...)] call; an argument the
    call site leaves out is [None]. *)
Module Reply.
Record t : Type := {
  results : list InlineQueryResultCachedDocument;
  is_personal : option bool;
  cache_time : Z;
  switch_pm_text : string;
  switch_pm_parameter : string;
  next_offset : option string
}.
End Reply.

(** The continuation token of the search: a string or an integer. *)
Inductive offset_token : Type :=
| TokStr (s : string)
| TokInt (n : Z).

(** [str(next_offset)] *)
Definition str_token (t : offset_token) : string :=
  match t with TokStr s => s | TokInt n => of_Z n end.

(** The constants of info.py and the ban list [temp.BANNED_USERS]. *)
Record Config : Type := {
  CACHE_TIME : Z;
  AUTH_USERS : list Z;
  AUTH_CHANNEL : option Z;
  CUSTOM_FILE_CAPTION : option string;
  BANNED_USERS : list Z
}.

(** The collaborators: [is_subscribed(bot, query)], [get_search_results],
    [get_size], the platform call behind [query.answer], and the
    interpreter. *)
Record World : Type := {
  python : Python;
  is_subscribed : InlineQuery -> result bool;
  get_search_results :
    string -> option string -> Z -> Z -> result (list Media.t * offset_token * Z);
  get_size : option Z -> result (option string);
  send : Reply.t -> result unit
}.

(** pyrogram.emoji *)
Module emoji.
Definition FILE_FOLDER : string := "📁".
Definition CROSS_MARK : string := "❌".
End emoji.

(** ** Truth values *)

(** [x in l] for a list of integers *)
Definition mem (x : Z) (l : list Z) : bool := existsb (Z.eqb x) l.

Definition truthy_list {A : Type} (l : list A) : bool :=
  match l with [] => false | _ => true end.

(** An optional integer is true when it is there and not zero. *)
Definition truthy_opt_int (o : option Z) : bool :=
  match o with Some n => negb (n =? 0) | None => false end.

(** [x or ""] written as ["" if x is None else x] in the source *)
Definition or_empty (o : option string) : string :=
  match o with Some s => s | None => EmptyString end.

(** ** The monad of the handler *)

Inductive event : Type :=
| CallIsSubscribed
| CallSearch (term : string) (file_type : option string) (max_results offset : Z)
| CallAnswer (r : Reply.t)
| LogException (e : exn).

Record state : Type := {
  trace : list event;
  heap : list InlineKeyboardMarkup
}.

Definition init : state := {| trace := []; heap := [] |}.

Definition M (A : Type) : Type := state -> result A * state.

Definition ret {A : Type} (a : A) : M A := fun s => (Ok a, s).

Definition bind {A B : Type} (m : M A) (k : A -> M B) : M B :=
  fun s =>
    match m s with
    | (Ok a, s') => k a s'
    | (Raise e, s') => (Raise e, s')
    | (Unmodelled, s') => (Unmodelled, s')
    end.

Notation "x <- m ;; k" := (bind m (fun x => k))
  (at level 61, m at next level, right associativity).
Notation "m ;;; k" := (bind m (fun _ => k))
  (at level 61, right associativity).

Definition lift {A : Type} (r : result A) : M A := fun s => (r, s).

Definition emit (ev : event) : M unit :=
  fun s => (Ok tt, {| trace := trace s ++ [ev]; heap := heap s |}).

(** Allocation of a keyboard object. *)
Definition new_markup (k : InlineKeyboardMarkup) : M markup_ref :=
  fun s => (Ok (List.length (heap s)), {| trace := trace s; heap := heap s ++ [k] |}).

(** [try: m  except ...:]; [h e] is the handler of the first clause that
    matches [e], if one does. *)
Definition try_except {A : Type} (m : M A) (h : exn -> option (M A)) : M A :=
  fun s =>
    match m s with
    | (Raise e, s') =>
        match h e with
        | Some k => k s'
        | None => (Raise e, s')
        end
    | r => r
    end.

(** ** The module *)

Section Handler.

Variable cfg : Config.
Variable w : World.

(** [cache_time = 0 if AUTH_USERS or AUTH_CHANNEL else CACHE_TIME] *)
Definition cache_time : Z :=
  if truthy_list (AUTH_USERS cfg) || truthy_opt_int (AUTH_CHANNEL cfg)
  then 0 else CACHE_TIME cfg.

Definition FORCE_FRESH_CACHE : bool := true.

Definition inline_users (q : InlineQuery) : bool :=
  if truthy_list (AUTH_USERS cfg) then
    match from_user q with
    | Some u => mem (User.id u) (AUTH_USERS cfg)
    | None => false
    end
  else
    match from_user q with
    | Some u => negb (mem (User.id u) (BANNED_USERS cfg))
    | None => false
    end.

(** The two rows of buttons of [get_reply_markup]. *)
Definition buttons (query : string) : list (list InlineKeyboardButton) :=
  [ [ {| text := "📚 HD MOVIES HUB 📚";
         url := Some "https://t.me/+KJHSwIdswKUwZjU1";
         switch_inline_query_current_chat := None |} ];
    [ {| text := "Search again";
         url := None;
         switch_inline_query_current_chat := Some query |} ] ].

(** Every call builds a new [InlineKeyboardMarkup] object. *)
Definition get_reply_markup (query : string) : M markup_ref :=
  new_markup {| inline_keyboard := buttons query |}.

(** [await query.answer(...)] *)
Definition query_answer (r : Reply.t) : M unit :=
  emit (CallAnswer r) ;;; lift (send w r).

(** Lines 67-73: the search term and the file type. *)
Definition parse_query (u : Python) (raw : string)
  : result (string * option string) :=
  if py_in "|" raw then
    match py_split1 "|" raw with
    | [term; file_type] => Ok (py_strip term, Some (py_lower u (py_strip file_type)))
    | _ => Raise ValueError
    end
  else Ok (py_strip raw, None).

(** Line 75: [int(query.offset or 0)] *)
Definition parse_offset (u : Python) (tok : option string) : result Z :=
  match tok with
  | None => Ok 0
  | Some s =>
      if truthy s then
        match py_int u s with
        | Some n => Ok n
        | None => Raise ValueError
        end
      else Ok 0
  end.

(** The line feed and the double quote, as one-character strings. *)
Definition nl : string := String "010"%char EmptyString.
Definition dquote : string := String "034"%char EmptyString.

(** Lines 90-100: the caption after the template step. *)
Definition template_step (title size f_caption : option string)
  : M (option string) :=
  match CUSTOM_FILE_CAPTION cfg with
  | Some template =>
      if truthy template then
        try_except
          (s <- lift (py_format (python w) template
                        [ ("file_name", or_empty title);
                          ("file_size", or_empty size);
                          ("file_caption", or_empty f_caption) ]) ;;
           ret (Some s))
          (fun e => if is_Exception e
                    then Some (emit (LogException e) ;;; ret f_caption)
                    else None)
      else ret f_caption
  | None => ret f_caption
  end.

(** Lines 102-103: a missing caption becomes [f"{file.file_name}"]. *)
Definition default_caption (file : Media.t) (f_caption : option string) : string :=
  match f_caption with
  | None => of_opt (Media.file_name file)
  | Some c => c
  end.

(** Lines 106-112: the result object. *)
Definition document (reply_markup : markup_ref) (file : Media.t)
    (size : option string) (f_caption : string)
  : InlineQueryResultCachedDocument :=
  {| title := Media.file_name file;
     document_file_id := Media.file_id file;
     caption := f_caption;
     description :=
       "Size: " ++ of_opt size ++ nl ++ "Type: " ++ of_opt (Media.file_type file);
     reply_markup := reply_markup |}.

(** Lines 86-113: the result built for one file. *)
Definition display (reply_markup : markup_ref) (file : Media.t)
  : M InlineQueryResultCachedDocument :=
  let title := Media.file_name file in
  size <- lift (get_size w (Media.file_size file)) ;;
  f_caption <- template_step title size (Media.caption file) ;;
  let f_caption := default_caption file f_caption in
  size' <- lift (get_size w (Media.file_size file)) ;;
  ret (document reply_markup file size' f_caption).

(** Lines 85-113: the loop over the files. *)
Fixpoint display_all (reply_markup : markup_ref) (files : list Media.t)
  : M (list InlineQueryResultCachedDocument) :=
  match files with
  | [] => ret []
  | file :: rest =>
      r <- display reply_markup file ;;
      rs <- display_all reply_markup rest ;;
      ret (r :: rs)
  end.

(** Lines 116-118 and 133-135: the text of the prompt ([term] is the
    source's variable [string]). *)
Definition results_text (total : Z) (term : string) : string :=
  let switch_pm_text := emoji.FILE_FOLDER ++ " Results - " ++ of_Z total in
  if truthy term then switch_pm_text ++ " for " ++ term else switch_pm_text.

Definition no_results_text (term : string) : string :=
  let switch_pm_text := emoji.CROSS_MARK ++ " No results" in
  if truthy term
  then switch_pm_text ++ " for " ++ dquote ++ term ++ dquote
  else switch_pm_text.

(** The reply of lines 48-53 and the reply of lines 57-62. *)
Definition access_denied : Reply.t :=
  {| Reply.results := [];
     Reply.is_personal := None;
     Reply.cache_time := 0;
     Reply.switch_pm_text := "okDa";
     Reply.switch_pm_parameter := "hehe";
     Reply.next_offset := None |}.

Definition not_subscribed : Reply.t :=
  {| Reply.results := [];
     Reply.is_personal := None;
     Reply.cache_time := 0;
     Reply.switch_pm_text := "You have to subscribe my channel to use the bot";
     Reply.switch_pm_parameter := "subscribe";
     Reply.next_offset := None |}.

(** The keyword arguments of the call of lines 120-127 and of the call of
  lines 137-143. *)
Definition found_reply (results : list InlineQueryResultCachedDocument)
    (next_offset : offset_token) (total : Z) (term : string) : Reply.t :=
  {| Reply.results := results;
     Reply.is_personal := Some true;
     Reply.cache_time := if FORCE_FRESH_CACHE then 0 else cache_time;
     Reply.switch_pm_text := results_text total term;
     Reply.switch_pm_parameter := "start";
     Reply.next_offset := Some (str_token next_offset) |}.

Definition empty_reply (term : string) : Reply.t :=
  {| Reply.results := [];
     Reply.is_personal := Some true;
     Reply.cache_time := if FORCE_FRESH_CACHE then 0 else cache_time;
     Reply.switch_pm_text := no_results_text term;
     Reply.switch_pm_parameter := "okay";
     Reply.next_offset := None |}.

(** Lines 115-143: the reply with the results, under [try], or the empty
    one, not under [try]. *)
Definition respond (results : list InlineQueryResultCachedDocument)
    (next_offset : offset_token) (total : Z) (term : string) : M unit :=
  if truthy_list results then
    try_except
      (query_answer (found_reply results next_offset total term))
      (fun e =>
         if is_QueryIdInvalid e then Some (ret tt)
         else if is_Exception e then Some (emit (LogException e))
         else None)
  else
    query_answer (empty_reply term).

(** Lines 65-143: what the handler does once both gates are passed. *)
Definition search_and_respond (q : InlineQuery) : M unit :=
  parsed <- lift (parse_query (python w) (query q)) ;;
  let '(term, file_type) := parsed in
  offset <- lift (parse_offset (python w) (offset q)) ;;
  reply_markup <- get_reply_markup term ;;
  emit (CallSearch term file_type 10 offset) ;;;
  found <- lift (get_search_results w term file_type 10 offset) ;;
  let '(files, next_offset, total) := found in
  results <- display_all reply_markup files ;;
  respond results next_offset total term.

(** The handler.  Each [return] of the source ends a branch here. *)
Definition answer (q : InlineQuery) : M unit :=
  if negb (inline_users q) then query_answer access_denied
  else
    unsubscribed <-
      (if truthy_opt_int (AUTH_CHANNEL cfg)
       then emit CallIsSubscribed ;;; (b <- lift (is_subscribed w q) ;; ret (negb b))
       else ret false) ;;
    if unsubscribed then query_answer not_subscribed
    else search_and_respond q.

End Handler.

(** ** Words of the specification *)

(** A run of blanks: characters of [str.isspace], of one, two or three
    bytes, one after the other. *)
Inductive blank_run : string -> Prop :=
| blank_run_nil : blank_run EmptyString
| blank_run_1 (a : ascii) (s : string) :
    is_space a = true -> blank_run s -> blank_run (String a s)
| blank_run_2 (a b : ascii) (s : string) :
    is_space2 a b = true -> blank_run s -> blank_run (String a (String b s))
| blank_run_3 (a b c : ascii) (s : string) :
    is_space3 a b c = true -> blank_run s ->
    blank_run (String a (String b (String c s))).

(** The text is one blank, and nothing else. *)
Definition is_one_blank (s : string) : bool :=
  match s with
  | String a EmptyString => is_space a
  | String a (String b EmptyString) => is_space2 a b
  | String a (String b (String c EmptyString)) => is_space3 a b c
  | _ => false
  end.

(** The text starts with a blank. *)
Definition starts_with_blank (s : string) : bool :=
  match s with
  | String a EmptyString => is_space a
  | String a (String b EmptyString) => is_space a || is_space2 a b
  | String a (String b (String c _)) => is_space a || is_space2 a b || is_space3 a b c
  | EmptyString => false
  end.

(** The text ends with a blank: one of its ends is one blank. *)
Fixpoint ends_with_blank (s : string) : bool :=
  is_one_blank s ||
  match s with
  | EmptyString => false
  | String _ t => ends_with_blank t
  end.

(** [t] is [s] trimmed: [s] is [t] between two runs of blanks, and [t]
    neither starts nor ends with a blank. *)
Definition trimmed_of (s t : string) : Prop :=
  exists a b,
    s = a ++ t ++ b /\ blank_run a /\ blank_run b
    /\ starts_with_blank t = false /\ ends_with_blank t = false.

(** [t] is the ASCII text [s] lowercased: the two are the same text once
    every small letter is made a capital, and [t] has no capital. *)
Definition is_small (c : ascii) : bool :=
  let n := N_of_ascii c in ((97 <=? n) && (n <=? 122))%N.

Definition upper_char (c : ascii) : ascii :=
  if is_small c then ascii_of_N (N_of_ascii c - 32) else c.

Fixpoint upper_ascii (s : string) : string :=
  match s with
  | EmptyString => EmptyString
  | String c t => String (upper_char c) (upper_ascii t)
  end.

Fixpoint no_capital (s : string) : bool :=
  match s with
  | EmptyString => true
  | String c t => negb (is_upper c) && no_capital t
  end.

Definition lowercased_of (s t : string) : Prop :=
  upper_ascii s = upper_ascii t /\ no_capital t = true.

(** A token that is a number between blanks, and a token that is not
    numeric: ASCII text without a digit. *)
Fixpoint all_blank (s : string) : bool :=
  match s with
  | EmptyString => true
  | String c t => is_blank c && all_blank t
  end.

Fixpoint has_digit (s : string) : bool :=
  match s with
  | EmptyString => false
  | String c t => is_digit c || has_digit t
  end.

Definition non_numeric (tok : string) : Prop :=
  tok <> EmptyString /\ is_ascii tok = true /\ has_digit tok = false.

(** A template as the specification reads it: literal text and named
    placeholders. *)
Inductive piece : Type :=
| Lit (s : string)
| Placeholder (name : string).

Fixpoint no_brace (s : string) : bool :=
  match s with
  | EmptyString => true
  | String c t => negb (Ascii.eqb c "{") && negb (Ascii.eqb c "}") && no_brace t
  end.

Fixpoint plain_chars (s : string) : bool :=
  match s with
  | EmptyString => true
  | String c t => negb (Ascii.eqb c "}") && negb (ends_plain_name c) && plain_chars t
  end.

(** A name that is neither empty nor a number, without brace, conversion,
    format, attribute or index mark. *)
Definition plain_name (name : string) : bool :=
  negb (all_digits name) && plain_chars name.

Definition plain_piece (p : piece) : bool :=
  match p with
  | Lit s => no_brace s
  | Placeholder name => plain_name name
  end.

(** The text of a template. *)
Fixpoint template_of (ps : list piece) : string :=
  match ps with
  | [] => EmptyString
  | Lit s :: r => s ++ template_of r
  | Placeholder name :: r => "{" ++ name ++ "}" ++ template_of r
  end.

(** Named-field substitution: every placeholder is replaced by the value of
    its name; the first placeholder without a value fails with its name. *)
Fixpoint substitute (kw : kwargs) (ps : list piece) : result string :=
  match ps with
  | [] => Ok EmptyString
  | Lit s :: r =>
      match substitute kw r with
      | Ok t => Ok (s ++ t)
      | failure => failure
      end
  | Placeholder name :: r =>
      match lookup name kw with
      | None => Raise (KeyError name)
      | Some v =>
          match substitute kw r with
          | Ok t => Ok (v ++ t)
          | failure => failure
          end
      end
  end.

(** [x] occurs in [s]. *)
Definition Contains (x s : string) : Prop := exists a b, s = a ++ x ++ b.

(** No call of the search collaborator, and no subscription check, in a
    trace. *)
Definition is_search (ev : event) : bool :=
  match ev with CallSearch _ _ _ _ => true | _ => false end.

Definition is_subscription_check (ev : event) : bool :=
  match ev with CallIsSubscribed => true | _ => false end.

Definition is_log (ev : event) : bool :=
  match ev with LogException _ => true | _ => false end.

Definition searched (t : list event) : bool := existsb is_search t.

Definition checked_subscription (t : list event) : bool :=
  existsb is_subscription_check t.

(** The replies sent in a trace, in order. *)
Fixpoint sent (t : list event) : list Reply.t :=
  match t with
  | [] => []
  | CallAnswer r :: t' => r :: sent t'
  | _ :: t' => sent t'
  end.

(** [s] with the events [t] added. *)
Definition extend (s : state) (t : list event) : state :=
  {| trace := trace s ++ t; heap := heap s |}.

(** A computation whose only effect is to log: its result and the events it
    adds do not depend on the state it starts from. *)
Definition logs_only {A : Type} (m : M A) : Prop :=
  exists r t, forallb is_log t = true /\ forall s, m s = (r, extend s t).

(** The run of the handler on one query, from the empty state. *)
Definition run (cfg : Config) (w : World) (q : InlineQuery) : result unit * state :=
  answer cfg w q init.

(** ** Concrete inputs *)

(** A sample of the interpreter, for the concrete inputs below only: every
    theorem is stated for every interpreter.  Lowering knows the capitals of
    Latin-1, U+00C0 to U+00DE but U+00D7 (C3 80 to C3 9E but C3 97), each 32
    below its small letter; [after_c3] tells that the byte before was C3. *)
Definition is_latin1_capital_tail (c : ascii) : bool :=
  let n := N_of_ascii c in ((128 <=? n) && (n <=? 158) && negb (n =? 151))%N.

Fixpoint lower_latin1 (after_c3 : bool) (s : string) : string :=
  match s with
  | EmptyString => EmptyString
  | String c t =>
      if after_c3 && is_latin1_capital_tail c
      then String (ascii_of_N (N_of_ascii c + 32)) (lower_latin1 false t)
      else String (lower_char c) (lower_latin1 (N_of_ascii c =? 195)%N t)
  end.

(** [int] knows the Arabic-Indic digits, U+0660 to U+0669 (D9 A0 to D9 A9):
    each becomes its ASCII digit, any other character beyond ASCII becomes a
    question mark, and the ASCII text is read. *)
Fixpoint arabic_to_ascii (after_d9 : bool) (s : string) : string :=
  match s with
  | EmptyString => if after_d9 then "?" else EmptyString
  | String c t =>
      let n := N_of_ascii c in
      if after_d9 then
        (if (160 <=? n) && (n <=? 169)
         then String (ascii_of_N (n - 112)) (arabic_to_ascii false t)
         else "?")%N
      else if (n =? 217)%N then arabic_to_ascii true t
      else if (128 <=? n)%N then "?"
      else String c (arabic_to_ascii false t)
  end.

(** The formatter knows one template with a conversion. *)
Definition sample_format (template : string) (kw : kwargs) : result string :=
  if String.eqb template "{file_name!r}" then
    match lookup "file_name" kw with
    | Some v => Ok ("'" ++ v ++ "'")
    | None => Raise (KeyError "file_name")
    end
  else Unmodelled.

Definition sample_python : Python.
Proof.
  refine {| str_lower := lower_latin1 false;
            str_int := fun s => int_ascii (arabic_to_ascii false s);
            str_format := sample_format;
            str_lower_no_capital := _;
            str_lower_start := _;
            str_lower_end := _;
            str_format_raises := _ |}.
  - assert (Hlow : forall c, is_upper (lower_char c) = false)
      by (intros [[|] [|] [|] [|] [|] [|] [|] [|]]; reflexivity).
    assert (Htail : forall c, is_latin1_capital_tail c = true ->
                              is_upper (ascii_of_N (N_of_ascii c + 32)) = false)
      by (intros [[|] [|] [|] [|] [|] [|] [|] [|]] H;
          first [reflexivity | discriminate H]).
    assert (H : forall s f c,
               py_in c (lower_latin1 f s) = true -> is_upper c = false).
    { induction s as [|d s IH]; intros f c; simpl; [discriminate|].
      destruct (f && is_latin1_capital_tail d) eqn:E; simpl.
      - destruct (Ascii.eqb _ c) eqn:Ec; [|apply IH].
        intros _. apply Ascii.eqb_eq in Ec. subst c. apply Htail.
        now apply andb_true_iff in E.
      - destruct (Ascii.eqb _ c) eqn:Ec; [|apply IH].
        intros _. apply Ascii.eqb_eq in Ec. subst c. apply Hlow. }
    intros s. apply H.
  - assert (Hsp : forall c, is_space (lower_char c) = is_space c)
      by (intros [[|] [|] [|] [|] [|] [|] [|] [|]]; reflexivity).
    intros [|d s]; simpl; [reflexivity|]. now rewrite Hsp.
  - assert (Hsp : forall c, is_space (lower_char c) = is_space c)
      by (intros [[|] [|] [|] [|] [|] [|] [|] [|]]; reflexivity).
    assert (Htail : forall c, is_latin1_capital_tail c = true ->
                              is_space (ascii_of_N (N_of_ascii c + 32)) = false)
      by (intros [[|] [|] [|] [|] [|] [|] [|] [|]] H;
          first [reflexivity | discriminate H]).
    assert (H : forall s f,
               ends_with_space s = false ->
               ends_with_space (lower_latin1 f s) = false).
    { induction s as [|d s IH]; intros f; [reflexivity|].
      destruct s as [|d' s].
      - simpl. destruct (f && is_latin1_capital_tail d) eqn:E; simpl.
        + intros _. apply Htail. now apply andb_true_iff in E.
        + now rewrite Hsp.
      - intros H. change (ends_with_space (String d' s) = false) in H.
        cbn [lower_latin1].
        destruct (f && is_latin1_capital_tail d).
        + specialize (IH false H). cbn [lower_latin1] in IH |- *.
          destruct (false && is_latin1_capital_tail d'); exact IH.
        + specialize (IH (N_of_ascii d =? 195)%N H). cbn [lower_latin1] in IH |- *.
          destruct ((N_of_ascii d =? 195)%N && is_latin1_capital_tail d'); exact IH. }
    intros s. apply H.
  - intros template kw e. unfold sample_format.
    destruct (String.eqb template "{file_name!r}"); [|discriminate].
    destruct (lookup "file_name" kw); [discriminate|].
    intros [= <-]. reflexivity.
Defined.


(** The no-break space U+00A0 (C2 A0), the ideographic space U+3000
    (E3 80 80), the line separator U+2028 (E2 80 A8), and the number 12 in
    Arabic-Indic digits, U+0661 U+0662 (D9 A1 D9 A2). *)
Definition nbsp : string := String "194" (String "160" EmptyString).

Definition ideographic_space : string :=
  String "227" (String "128" (String "128" EmptyString)).

Definition line_separator : string :=
  String "226" (String "128" (String "168" EmptyString)).

Definition arabic_12 : string :=
  String "217" (String "161" (String "217" (String "162" EmptyString))).

Definition C1_cfg_allow : Config :=
  {| CACHE_TIME := 300; AUTH_USERS := [11; 12]; AUTH_CHANNEL := None;
     CUSTOM_FILE_CAPTION := None; BANNED_USERS := [12] |}.

Definition C1_query : InlineQuery :=
  {| from_user := Some {| User.id := 12 |}; query := "batman"; offset := None |}.

Definition C10_query : InlineQuery :=
  {| from_user := None; query := "batman"; offset := None |}.

Definition quiet_world : World :=
  {| python := sample_python;
     is_subscribed := fun _ => Ok true;
     get_search_results := fun _ _ _ _ => Ok ([], TokStr "", 0);
     get_size := fun _ => Ok (Some "10 MB");
     send := fun _ => Ok tt |}.

Definition open_cfg : Config :=
  {| CACHE_TIME := 300; AUTH_USERS := []; AUTH_CHANNEL := None;
     CUSTOM_FILE_CAPTION := None; BANNED_USERS := [7] |}.

Definition channel_cfg : Config :=
  {| CACHE_TIME := 300; AUTH_USERS := []; AUTH_CHANNEL := Some (-1001234);
     CUSTOM_FILE_CAPTION := None; BANNED_USERS := [7] |}.

Definition banned_query : InlineQuery :=
  {| from_user := Some {| User.id := 7 |}; query := "batman"; offset := None |}.

Definition user_query (raw : string) (tok : option string) : InlineQuery :=
  {| from_user := Some {| User.id := 1 |}; query := raw; offset := tok |}.

Definition unsubscribed_world : World :=
  {| python := sample_python;
     is_subscribed := fun _ => Ok false;
     get_search_results := fun _ _ _ _ => Ok ([], TokStr "", 0);
     get_size := fun _ => Ok (Some "10 MB");
     send := fun _ => Ok tt |}.

Definition batman_1 : Media.t :=
  {| Media.file_id := "BQADBAAD1"; Media.file_name := Some "a.mp4";
     Media.file_size := Some 10485760; Media.file_type := Some "video";
     Media.caption := None |}.

Definition batman_2 : Media.t :=
  {| Media.file_id := "BQADBAAD2"; Media.file_name := Some "Batman Begins.mkv";
     Media.file_size := Some 10485760; Media.file_type := Some "document";
     Media.caption := Some "Batman Begins (2005)" |}.

(** A search that finds 57 files and returns the first two. *)
Definition batman_world : World :=
  {| python := sample_python;
     is_subscribed := fun _ => Ok true;
     get_search_results := fun _ _ _ _ => Ok ([batman_1; batman_2], TokInt 10, 57);
     get_size := fun _ => Ok (Some "10 MB");
     send := fun _ => Ok tt |}.

Definition batman_query : InlineQuery := user_query "batman|mkv" None.

Definition batman_reply : Reply.t :=
  Eval vm_compute in
    hd access_denied (sent (trace (snd (run open_cfg batman_world batman_query)))).

Definition batman_result : InlineQueryResultCachedDocument :=
  Eval vm_compute in
    hd {| title := None; document_file_id := ""; caption := "";
          description := ""; reply_markup := 1%nat |}
       (Reply.results batman_reply).

(** The query has expired by the time the reply is sent, and nothing was
    found. *)
Definition expired_world : World :=
  {| python := sample_python;
     is_subscribed := fun _ => Ok true;
     get_search_results := fun _ _ _ _ => Ok ([], TokStr "", 0);
     get_size := fun _ => Ok (Some "10 MB");
     send := fun _ => Raise QueryIdInvalid |}.

(** The same, with two files found. *)
Definition expired_batman_world : World :=
  {| python := sample_python;
     is_subscribed := fun _ => Ok true;
     get_search_results := fun _ _ _ _ => Ok ([batman_1; batman_2], TokInt 10, 57);
     get_size := fun _ => Ok (Some "10 MB");
     send := fun _ => Raise QueryIdInvalid |}.

Definition caption_cfg (template : string) : Config :=
  {| CACHE_TIME := 300; AUTH_USERS := []; AUTH_CHANNEL := None;
     CUSTOM_FILE_CAPTION := Some template; BANNED_USERS := [] |}.

(** ** More concrete inputs *)

Definition batman_results : list InlineQueryResultCachedDocument :=
  Eval vm_compute in Reply.results batman_reply.

(** The search backend is down. *)
Definition failing_search_world : World :=
  {| python := sample_python;
     is_subscribed := fun _ => Ok true;
     get_search_results := fun _ _ _ _ => Raise (OtherException "database unreachable");
     get_size := fun _ => Ok (Some "10 MB");
     send := fun _ => Ok tt |}.

(** The subscription check fails. *)
Definition failing_check_world : World :=
  {| python := sample_python;
     is_subscribed := fun _ => Raise (OtherException "chat not found");
     get_search_results := fun _ _ _ _ => Ok ([batman_1; batman_2], TokInt 10, 57);
     get_size := fun _ => Ok (Some "10 MB");
     send := fun _ => Ok tt |}.

(** A file without size, on which the size formatter fails. *)
Definition sizeless : Media.t :=
  {| Media.file_id := "BQADBAAD3"; Media.file_name := None;
     Media.file_size := None; Media.file_type := None;
     Media.caption := None |}.

Definition strict_size_world : World :=
  {| python := sample_python;
     is_subscribed := fun _ => Ok true;
     get_search_results := fun _ _ _ _ => Ok ([batman_1; sizeless], TokInt 10, 57);
     get_size := fun size =>
       match size with
       | Some _ => Ok (Some "10 MB")
       | None => Raise (OtherException "float() argument must be a string or a number")
       end;
     send := fun _ => Ok tt |}.

(** A send that fails for another reason than an expired query. *)
Definition flooded_world : World :=
  {| python := sample_python;
     is_subscribed := fun _ => Ok true;
     get_search_results := fun _ _ _ _ => Ok ([batman_1; batman_2], TokInt 10, 57);
     get_size := fun _ => Ok (Some "10 MB");
     send := fun _ => Raise (OtherException "FLOOD_WAIT") |}.

Definition allow_cfg_zero_channel : Config :=
  {| CACHE_TIME := 300; AUTH_USERS := []; AUTH_CHANNEL := Some 0;
     CUSTOM_FILE_CAPTION := Some ""; BANNED_USERS := [] |}.

(** ** The model on small inputs *)

Example py_int_42 : py_int sample_python " 42 " = Some 42.
Proof. reflexivity. Qed.

Example py_int_underscore : py_int sample_python "1_000" = Some 1000.
Proof. reflexivity. Qed.

Example py_int_neg : py_int sample_python "-7" = Some (-7).
Proof. reflexivity. Qed.

Example py_int_bad :
  let int := py_int sample_python in
  int "abc" = None /\ int "" = None /\ int "1__0" = None
  /\ int "+" = None /\ int "_1" = None /\ int "1_" = None
  /\ int "- 1" = None /\ int "1 2" = None /\ int "10.5" = None.
Proof. repeat split; reflexivity. Qed.

Example search_reached :
  searched (trace (snd (run open_cfg batman_world batman_query))) = true.
Proof. reflexivity. Qed.

Example end_to_end :
  match sent (trace (snd (run open_cfg batman_world batman_query))) with
  | [r] =>
      Reply.is_personal r = Some true
      /\ List.length (Reply.results r) = 2%nat
      /\ occurs "57" (Reply.switch_pm_text r) = true
      /\ occurs "batman" (Reply.switch_pm_text r) = true
  | _ => False
  end.
Proof. repeat split. Qed.

Example of_Z_57 : of_Z 57 = "57" /\ of_Z 0 = "0" /\ of_Z (-3) = "-3".
Proof. repeat split; reflexivity. Qed.

Example split1_ex : py_split1 "|" "a|b|c" = ["a"; "b|c"] /\ py_split1 "|" "abc" = ["abc"].
Proof. split; reflexivity. Qed.

Example strip_ex : py_strip "  a b  " = "a b" /\ py_strip "   " = "".
Proof. split; reflexivity. Qed.

Example format_ex :
  py_format sample_python "{file_name} - {file_size}"
    [("file_name", "a.mp4"); ("file_size", "10 MB"); ("file_caption", "")]
  = Ok "a.mp4 - 10 MB".
Proof. reflexivity. Qed.

Example format_bad :
  py_format sample_python "{title}" [("file_name", "a.mp4")] = Raise (KeyError "title")
  /\ py_format sample_python "a } b" [] = Raise ValueError
  /\ py_format sample_python "{x" [("x", "1")] = Raise ValueError
  /\ py_format sample_python "{{x}}" [] = Ok "{x}"
  /\ py_format sample_python "{}" [("x", "1")] = Raise IndexError
  /\ format_plain "{x!r}" [("x", "1")] = Unmodelled.
Proof. repeat split; reflexivity. Qed.


(** Beyond ASCII: a query between two no-break spaces, a text between an
    ideographic space and a line separator, a file type with a capital of
    Latin-1, an offset in Arabic-Indic digits, a template with a conversion. *)
Example strip_nbsp :
  parse_query sample_python (nbsp ++ "batman|mkv" ++ nbsp) = Ok ("batman", Some "mkv")
  /\ py_strip (ideographic_space ++ " a b " ++ line_separator) = "a b"
  /\ py_strip (nbsp ++ nbsp) = "".
Proof. repeat split; reflexivity. Qed.

Example lower_latin1_ex :
  parse_query sample_python "x|MKVÉ" = Ok ("x", Some "mkvé").
Proof. reflexivity. Qed.

Example int_arabic_ex :
  parse_offset sample_python (Some arabic_12) = Ok 12
  /\ searched (trace (snd (run open_cfg batman_world
                             (user_query "batman" (Some arabic_12))))) = true.
Proof. split; reflexivity. Qed.

Example format_conversion_ex :
  py_format sample_python "{file_name!r}"
    [("file_name", "a.mp4"); ("file_size", "10 MB"); ("file_caption", "")]
  = Ok "'a.mp4'"
  /\ List.length
       (sent (trace (snd (run (caption_cfg "{file_name!r}") batman_world batman_query))))
     = 1%nat.
Proof. split; reflexivity. Qed.
(** ** Strings: lemmas *)

Section StringFacts.

Lemma append_nil_r (s : string) : s ++ "" = s.
Proof. induction s as [|c s IH]; simpl; [reflexivity | now rewrite IH]. Qed.

Lemma append_assoc (a b c : string) : (a ++ b) ++ c = a ++ b ++ c.
Proof. induction a as [|x a IH]; simpl; [reflexivity | now rewrite IH]. Qed.

Lemma mem_In (x : Z) (l : list Z) : mem x l = true <-> In x l.
Proof.
  unfold mem. rewrite existsb_exists. split.
  - intros (y & Hy & E). apply Z.eqb_eq in E. now subst.
  - intros H. exists x. split; [assumption | apply Z.eqb_refl].
Qed.

Lemma truthy_list_nonempty {A : Type} (l : list A) :
  truthy_list l = true <-> l <> [].
Proof. destruct l; simpl; split; congruence. Qed.

(** Splitting at the first separator. *)
Lemma py_split1_found (c : ascii) (s : string) :
  py_in c s = true ->
  exists l r, s = l ++ String c r /\ py_in c l = false /\ py_split1 c s = [l; r].
Proof.
  induction s as [|d s IH]; simpl; [discriminate|].
  destruct (Ascii.eqb d c) eqn:E.
  - intros _. apply Ascii.eqb_eq in E. subst d.
    exists "", s. repeat split.
  - intros H. destruct (IH H) as (l & r & Hs & Hl & Hsp).
    exists (String d l), r. simpl. rewrite E, Hsp, Hs. repeat split. assumption.
Qed.

Lemma py_split1_absent (c : ascii) (s : string) :
  py_in c s = false -> py_split1 c s = [s].
Proof.
  induction s as [|d s IH]; simpl; [reflexivity|].
  destruct (Ascii.eqb d c); [discriminate|].
  intros H. now rewrite (IH H).
Qed.

Lemma py_in_Contains (c : ascii) (s : string) :
  py_in c s = true <-> Contains (String c "") s.
Proof.
  split.
  - intros H. destruct (py_split1_found c s H) as (l & r & Hs & _).
    exists l, r. exact Hs.
  - intros (a & b & ->). induction a as [|d a IH]; simpl.
    + now rewrite Ascii.eqb_refl.
    + destruct (Ascii.eqb d c); [reflexivity | exact IH].
Qed.

(** The bytes of the blanks. *)
Ltac bytes :=
  unfold blank_lead, is_space, is_space2, is_space3 in *; cbv zeta in *;
  repeat (progress
            (rewrite ?andb_true_iff, ?orb_true_iff, ?andb_false_iff, ?orb_false_iff,
               ?N.eqb_eq, ?N.eqb_neq, ?N.leb_le, ?N.leb_gt in * ));
  lia.

Lemma is_space2_first (a b : ascii) : is_space2 a b = true -> is_space a = false.
Proof. intros H. bytes. Qed.

Lemma is_space3_first (a b c : ascii) :
  is_space3 a b c = true -> is_space a = false /\ is_space2 a b = false.
Proof. intros H. split; bytes. Qed.

Lemma is_space_lead (a : ascii) : is_space a = true -> blank_lead a = true.
Proof. intros H. bytes. Qed.

Lemma is_space2_lead (a b : ascii) :
  is_space2 a b = true -> blank_lead a = true /\ blank_lead b = false.
Proof. intros H. split; bytes. Qed.

Lemma is_space3_lead (a b c : ascii) :
  is_space3 a b c = true ->
  blank_lead a = true /\ blank_lead b = false /\ blank_lead c = false.
Proof. intros H. repeat split; bytes. Qed.

Lemma blank_run_inv (c : ascii) (s : string) :
  blank_run (String c s) ->
  (is_space c = true /\ blank_run s)
  \/ (exists b r, s = String b r /\ is_space2 c b = true /\ blank_run r)
  \/ (exists b d r, s = String b (String d r) /\ is_space3 c b d = true /\ blank_run r).
Proof.
  intros H. inversion H; subst.
  - now left.
  - right. left. eauto.
  - right. right. eauto 6.
Qed.

Lemma blank_run_lead (c : ascii) (s : string) :
  blank_run (String c s) -> blank_lead c = true.
Proof.
  intros H.
  destruct (blank_run_inv c s H)
    as [(Hc & _) | [(b & r & _ & Hc & _) | (b & d & r & _ & Hc & _)]].
  - now apply is_space_lead.
  - now apply is_space2_lead with (b := b).
  - now apply is_space3_lead with (b := b) (c := d).
Qed.

(** Stripping on the left. *)
Lemma py_lstrip_blank (p s : string) :
  is_one_blank p = true -> py_lstrip (p ++ s) = py_lstrip s.
Proof.
  destruct p as [|a [|b [|c [|d p]]]]; cbn [is_one_blank]; try discriminate; intros H.
  - cbn [append py_lstrip]. now rewrite H.
  - cbn [append py_lstrip]. now rewrite (is_space2_first a b H), H.
  - destruct (is_space3_first a b c H) as (H1 & H2).
    cbn [append py_lstrip]. now rewrite H1, H2, H.
Qed.

Lemma blank_run_lstrip (a s : string) :
  blank_run a -> py_lstrip (a ++ s) = py_lstrip s.
Proof.
  induction 1 as [|a r H _ IH|a b r H _ IH|a b c r H _ IH].
  - reflexivity.
  - rewrite <- IH. now apply (py_lstrip_blank (String a "")).
  - rewrite <- IH. now apply (py_lstrip_blank (String a (String b ""))).
  - rewrite <- IH. now apply (py_lstrip_blank (String a (String b (String c "")))).
Qed.

Lemma py_lstrip_spec (s : string) :
  exists a, s = a ++ py_lstrip s /\ blank_run a
            /\ starts_with_blank (py_lstrip s) = false.
Proof.
  induction s as [s IH] using (well_founded_induction
                                 (Wf_nat.well_founded_ltof _ String.length)).
  assert (IH' : forall t, (String.length t < String.length s)%nat ->
                          exists a, t = a ++ py_lstrip t /\ blank_run a
                                    /\ starts_with_blank (py_lstrip t) = false)
    by exact IH.
  clear IH. destruct s as [|a t].
  - exists "". repeat split. constructor.
  - cbn [py_lstrip]. destruct (is_space a) eqn:E1.
    { destruct (IH' t) as (p & Hp & Hr & Hst); [simpl; lia|].
      exists (String a p). cbn [append]. rewrite <- Hp.
      repeat split; [now constructor | exact Hst]. }
    destruct t as [|b t2].
    { exists "". repeat split; [constructor | exact E1]. }
    destruct (is_space2 a b) eqn:E2.
    { destruct (IH' t2) as (p & Hp & Hr & Hst); [simpl; lia|].
      exists (String a (String b p)). cbn [append]. rewrite <- Hp.
      repeat split; [now constructor | exact Hst]. }
    destruct t2 as [|c t3].
    { exists "". repeat split; [constructor | cbn; now rewrite E1, E2]. }
    destruct (is_space3 a b c) eqn:E3.
    { destruct (IH' t3) as (p & Hp & Hr & Hst); [simpl; lia|].
      exists (String a (String b (String c p))). cbn [append]. rewrite <- Hp.
      repeat split; [now constructor | exact Hst]. }
    exists "". repeat split; [constructor | cbn; now rewrite E1, E2, E3].
Qed.

Lemma py_lstrip_fixed (s : string) :
  starts_with_blank s = false -> py_lstrip s = s.
Proof.
  destruct s as [|a [|b [|c s]]]; cbn [starts_with_blank py_lstrip];
    rewrite ?orb_false_iff.
  - reflexivity.
  - now intros ->.
  - now intros (-> & ->).
  - now intros ((-> & ->) & ->).
Qed.

Lemma py_lstrip_empty (s : string) : py_lstrip s = "" <-> blank_run s.
Proof.
  split.
  - intros H. destruct (py_lstrip_spec s) as (a & Hs & Ha & _).
    rewrite H, append_nil_r in Hs. now subst.
  - intros H. rewrite <- (append_nil_r s). now rewrite blank_run_lstrip.
Qed.

Lemma starts_with_blank_prefix (r b : string) :
  starts_with_blank (r ++ b) = false -> starts_with_blank r = false.
Proof.
  destruct r as [|x [|y [|z r]]]; cbn [append starts_with_blank].
  - reflexivity.
  - destruct b as [|y [|z b]]; cbn [starts_with_blank]; rewrite ?orb_false_iff; tauto.
  - destruct b as [|z b]; cbn [starts_with_blank]; rewrite ?orb_false_iff; tauto.
  - tauto.
Qed.

(** Stripping on the right. *)
Lemma py_rstrip_spec (s : string) :
  exists b, s = py_rstrip s ++ b /\ blank_run b
            /\ ends_with_blank (py_rstrip s) = false.
Proof.
  induction s as [|a t (b & Ht & Hb & Hend)].
  - exists "". repeat split. constructor.
  - cbn [py_rstrip]. destruct (py_lstrip (String a t)) as [|x y] eqn:E.
    + exists (String a t). repeat split. now apply py_lstrip_empty.
    + exists b. cbn [append]. rewrite <- Ht. repeat split; [exact Hb|].
      cbn [ends_with_blank]. rewrite Hend, orb_false_r.
      destruct (is_one_blank (String a (py_rstrip t))) eqn:B; [|reflexivity].
      pose proof (py_lstrip_blank _ b B) as L. cbn [append] in L.
      rewrite <- Ht, E, (proj2 (py_lstrip_empty b) Hb) in L. discriminate.
Qed.

Lemma py_strip_trimmed (s : string) : trimmed_of s (py_strip s).
Proof.
  unfold trimmed_of, py_strip.
  destruct (py_lstrip_spec s) as (a & Hs & Ha & Hst).
  destruct (py_rstrip_spec (py_lstrip s)) as (b & Hm & Hb & Hend).
  exists a, b. repeat split; try assumption.
  - rewrite <- Hm. exact Hs.
  - apply (starts_with_blank_prefix _ b). now rewrite <- Hm.
Qed.

(** The trimmed text is determined by the input: [trimmed_of] has no other
    solution than [py_strip]. *)
Lemma text_before_blanks (t b : string) :
  starts_with_blank t = false -> t <> "" -> blank_run b ->
  starts_with_blank (t ++ b) = false.
Proof.
  intros Ht Hne Hb. destruct t as [|x [|y [|z t]]]; [now destruct Hne | | |exact Ht].
  - destruct b as [|y b]; [exact Ht|].
    pose proof (blank_run_lead _ _ Hb) as Hy. cbn [append].
    cbn [starts_with_blank] in Ht.
    assert (H2 : is_space2 x y = false).
    { destruct (is_space2 x y) eqn:E; [|reflexivity].
      apply is_space2_lead in E. destruct E as (_ & E). congruence. }
    destruct b as [|z b]; cbn [starts_with_blank]; rewrite Ht, H2; [reflexivity|].
    destruct (is_space3 x y z) eqn:E; [|reflexivity].
    apply is_space3_lead in E. destruct E as (_ & E & _). congruence.
  - destruct b as [|z b]; [exact Ht|].
    pose proof (blank_run_lead _ _ Hb) as Hz. cbn [append].
    cbn [starts_with_blank] in Ht |- *. rewrite Ht.
    destruct (is_space3 x y z) eqn:E; [|reflexivity].
    apply is_space3_lead in E. destruct E as (_ & _ & E). congruence.
Qed.

Lemma blank_run_split (x b : string) :
  blank_run (x ++ b) -> blank_run b -> blank_run x.
Proof.
  induction x as [x IH] using (well_founded_induction
                                 (Wf_nat.well_founded_ltof _ String.length)).
  assert (IH' : forall y, (String.length y < String.length x)%nat ->
                          blank_run (y ++ b) -> blank_run b -> blank_run y)
    by exact IH.
  clear IH. intros H Hb. destruct x as [|a x]; [constructor|].
  cbn [append] in H.
  destruct (blank_run_inv _ _ H)
    as [(Ha & Hs) | [(y & r & E & Ha & Hs) | (y & z & r & E & Ha & Hs)]].
  - constructor; [exact Ha|]. apply IH'; [simpl; lia | exact Hs | exact Hb].
  - destruct x as [|y' x].
    + cbn [append] in E. subst b. apply blank_run_lead in Hb.
      apply is_space2_lead in Ha. destruct Ha as (_ & Ha). congruence.
    + cbn [append] in E. injection E as -> E. subst r.
      constructor; [exact Ha|]. apply IH'; [simpl; lia | exact Hs | exact Hb].
  - destruct x as [|y' [|z' x]].
    + cbn [append] in E. subst b. apply blank_run_lead in Hb.
      apply is_space3_lead in Ha. destruct Ha as (_ & Ha & _). congruence.
    + cbn [append] in E. injection E as -> E. subst b. apply blank_run_lead in Hb.
      apply is_space3_lead in Ha. destruct Ha as (_ & _ & Ha). congruence.
    + cbn [append] in E. injection E as -> -> E. subst r.
      constructor; [exact Ha|]. apply IH'; [simpl; lia | exact Hs | exact Hb].
Qed.

Lemma blank_run_ends (x : string) :
  blank_run x -> x <> "" -> ends_with_blank x = true.
Proof.
  induction 1 as [|a s Ha Hs IH|a b s Ha Hs IH|a b c s Ha Hs IH]; intros Hne.
  - now destruct Hne.
  - destruct s as [|y s]; [cbn; now rewrite Ha|].
    cbn [ends_with_blank] in IH |- *. rewrite IH by discriminate.
    apply orb_true_r.
  - destruct s as [|y s]; [cbn; now rewrite Ha|].
    cbn [ends_with_blank] in IH |- *. rewrite IH by discriminate.
    now rewrite !orb_true_r.
  - destruct s as [|y s]; [cbn; now rewrite Ha|].
    cbn [ends_with_blank] in IH |- *. rewrite IH by discriminate.
    now rewrite !orb_true_r.
Qed.

Lemma blank_run_rstrip (b : string) : blank_run b -> py_rstrip b = "".
Proof.
  intros H. destruct b as [|c b]; [reflexivity|].
  cbn [py_rstrip]. now rewrite (proj2 (py_lstrip_empty _) H).
Qed.

Lemma py_rstrip_text (t b : string) :
  ends_with_blank t = false -> blank_run b -> py_rstrip (t ++ b) = t.
Proof.
  intros Ht Hb. induction t as [|c t IH].
  - now apply blank_run_rstrip.
  - cbn [append py_rstrip].
    cbn [ends_with_blank] in Ht. apply orb_false_iff in Ht. destruct Ht as (Hone & Ht').
    destruct (py_lstrip (String c (t ++ b))) as [|x y] eqn:E.
    + apply py_lstrip_empty in E.
      pose proof (blank_run_split (String c t) b E Hb) as R.
      apply blank_run_ends in R; [|discriminate].
      cbn [ends_with_blank] in R. rewrite Hone, Ht' in R. discriminate.
    + now rewrite IH.
Qed.

Lemma trimmed_of_unique (s t : string) : trimmed_of s t -> t = py_strip s.
Proof.
  intros (a & b & -> & Ha & Hb & Hst & Hend). unfold py_strip.
  rewrite (blank_run_lstrip a _ Ha).
  destruct t as [|c t].
  - cbn [append]. now rewrite (proj2 (py_lstrip_empty b) Hb).
  - rewrite py_lstrip_fixed.
    + now rewrite py_rstrip_text.
    + apply text_before_blanks; [exact Hst | discriminate | exact Hb].
Qed.

(** Lowering, on ASCII text. *)
Lemma lower_char_not_upper (c : ascii) : is_upper (lower_char c) = false.
Proof. destruct c as [[|] [|] [|] [|] [|] [|] [|] [|]]; reflexivity. Qed.

Lemma upper_lower_char (c : ascii) : upper_char (lower_char c) = upper_char c.
Proof. destruct c as [[|] [|] [|] [|] [|] [|] [|] [|]]; reflexivity. Qed.

Lemma lower_upper_char (c : ascii) : lower_char (upper_char c) = lower_char c.
Proof. destruct c as [[|] [|] [|] [|] [|] [|] [|] [|]]; reflexivity. Qed.

Lemma lower_char_fixed (c : ascii) : is_upper c = false -> lower_char c = c.
Proof. unfold lower_char. now intros ->. Qed.


Lemma no_capital_spec (t : string) :
  no_capital t = true <-> forall c, py_in c t = true -> is_upper c = false.
Proof.
  induction t as [|d t IH]; cbn [no_capital py_in].
  - split; [discriminate | reflexivity].
  - rewrite andb_true_iff, negb_true_iff, IH. split.
    + intros (Hd & Ht) c. destruct (Ascii.eqb d c) eqn:E; [|apply Ht].
      intros _. apply Ascii.eqb_eq in E. now subst c.
    + intros H. split.
      * apply H. now rewrite Ascii.eqb_refl.
      * intros c Hc. apply H. rewrite Hc. now destruct (Ascii.eqb d c).
Qed.

Lemma lower_ascii_lowercased (s : string) : lowercased_of s (lower_ascii s).
Proof.
  unfold lowercased_of. induction s as [|c s (IH1 & IH2)]; [now split|].
  cbn [lower_ascii upper_ascii no_capital].
  rewrite upper_lower_char, lower_char_not_upper, <- IH1, IH2. now split.
Qed.

(** [lowercased_of] has no other solution than [lower_ascii]. *)
Lemma lowercased_of_unique (s t : string) : lowercased_of s t -> t = lower_ascii s.
Proof.
  unfold lowercased_of. revert t. induction s as [|c s IH]; intros [|d t];
    cbn [upper_ascii no_capital lower_ascii]; intros (E & N);
    try reflexivity; try discriminate.
  injection E as Ec Es. apply andb_true_iff in N. destruct N as (Nd & Nt).
  apply negb_true_iff in Nd.
  rewrite <- (IH t (conj Es Nt)). f_equal.
  now rewrite <- (lower_char_fixed d Nd), <- lower_upper_char, <- Ec, lower_upper_char.
Qed.

Lemma lower_ascii_spec (s : string) :
  String.length (lower_ascii s) = String.length s
  /\ forall c, py_in c (lower_ascii s) = true -> is_upper c = false.
Proof.
  split.
  - induction s as [|d s IH]; simpl; [reflexivity | now rewrite IH].
  - apply no_capital_spec. apply lower_ascii_lowercased.
Qed.

Lemma py_lower_ascii (u : Python) (s : string) :
  is_ascii s = true -> py_lower u s = lower_ascii s.
Proof. unfold py_lower. now intros ->. Qed.

Lemma py_lower_beyond (u : Python) (s : string) :
  is_ascii s = false -> py_lower u s = str_lower u s.
Proof. unfold py_lower. now intros ->. Qed.

(** Whatever the text, lowering leaves no ASCII capital. *)
Lemma py_lower_no_capital (u : Python) (s : string) :
  no_capital (py_lower u s) = true.
Proof.
  unfold py_lower. destruct (is_ascii s).
  - apply lower_ascii_lowercased.
  - apply no_capital_spec. apply str_lower_no_capital.
Qed.

End StringFacts.
(** ** The access gate *)

(** C1.  For a query that carries a user: with a non-empty allow-list the
    user is admitted exactly when the user ID is in the allow-list; with an
    empty allow-list the user is admitted exactly when the user ID is not in
    the banned-users list. *)
Theorem inline_users_admits (cfg : Config) (q : InlineQuery) (u : User.t) :
  from_user q = Some u ->
  (AUTH_USERS cfg <> [] ->
     (inline_users cfg q = true <-> In (User.id u) (AUTH_USERS cfg)))
  /\ (AUTH_USERS cfg = [] ->
     (inline_users cfg q = true <-> ~ In (User.id u) (BANNED_USERS cfg))).
Proof.
  intros Hu. unfold inline_users. rewrite Hu. split.
  - intros Hne. apply truthy_list_nonempty in Hne. rewrite Hne. apply mem_In.
  - intros ->. simpl. rewrite negb_true_iff, <- not_true_iff_false.
    now rewrite mem_In.
Qed.

Lemma inline_users_admits_witness :
  inline_users C1_cfg_allow C1_query = true <-> In 12 (AUTH_USERS C1_cfg_allow).
Proof.
  apply (inline_users_admits C1_cfg_allow C1_query {| User.id := 12 |}).
  - reflexivity.
  - simpl. discriminate.
Defined.

(** C10.  A query without a user is refused whatever the allow-list is: the
    gate answers no, the handler sends the empty denial reply and stops, and
    the search is not called. *)
Theorem no_user_denied (cfg : Config) (w : World) (q : InlineQuery) :
  from_user q = None ->
  inline_users cfg q = false
  /\ run cfg w q
     = (send w access_denied,
        {| trace := [CallAnswer access_denied]; heap := [] |})
  /\ Reply.results access_denied = []
  /\ searched (trace (snd (run cfg w q))) = false.
Proof.
  intros Hu.
  assert (Hd : inline_users cfg q = false).
  { unfold inline_users. rewrite Hu. now destruct (truthy_list (AUTH_USERS cfg)). }
  unfold run, answer. rewrite Hd. simpl.
  unfold query_answer, bind, emit, lift. simpl.
  repeat split; try assumption.
Qed.

Lemma no_user_denied_witness :
  inline_users C1_cfg_allow C10_query = false
  /\ run C1_cfg_allow quiet_world C10_query
     = (send quiet_world access_denied,
        {| trace := [CallAnswer access_denied]; heap := [] |})
  /\ Reply.results access_denied = []
  /\ searched (trace (snd (run C1_cfg_allow quiet_world C10_query))) = false.
Proof.
  apply (no_user_denied C1_cfg_allow quiet_world C10_query). reflexivity.
Defined.

(** ** The query parser *)

Lemma parse_query_total (u : Python) (raw : string) :
  exists term file_type, parse_query u raw = Ok (term, file_type).
Proof.
  unfold parse_query. destruct (py_in "|" raw) eqn:E.
  - destruct (py_split1_found _ _ E) as (l & r & _ & _ & ->). eauto.
  - eauto.
Qed.

(** C3.  A raw query that contains the bar is cut at its first bar: the
    search term is the left part trimmed and the file type is the right part
    trimmed and lowercased.  Trimmed: the part is the result between two runs
    of blanks, and the result neither starts nor ends with a blank.
    Lowercased: the file type has no ASCII capital; when the trimmed right
    part is ASCII text, it is that text up to the case of its letters; beyond
    ASCII it is what [str.lower] of the interpreter makes of the trimmed right
    part.  A raw query without a bar has no file type and its search term is
    the whole input trimmed. *)
Theorem parse_query_split (u : Python) (raw : string) :
  (py_in "|" raw = true ->
     exists l r term ft,
       raw = l ++ "|" ++ r /\ py_in "|" l = false
       /\ parse_query u raw = Ok (term, Some ft)
       /\ trimmed_of l term
       /\ no_capital ft = true
       /\ exists r',
            trimmed_of r r'
            /\ (is_ascii r' = true -> lowercased_of r' ft)
            /\ (is_ascii r' = false -> ft = str_lower u r'))
  /\ (py_in "|" raw = false ->
        exists term,
          parse_query u raw = Ok (term, None) /\ trimmed_of raw term).
Proof.
  unfold parse_query. split; intros E; rewrite E.
  - destruct (py_split1_found _ _ E) as (l & r & Hraw & Hl & ->).
    exists l, r, (py_strip l), (py_lower u (py_strip r)).
    split; [exact Hraw|]. split; [exact Hl|]. split; [reflexivity|].
    split; [apply py_strip_trimmed|]. split; [apply py_lower_no_capital|].
    exists (py_strip r). split; [apply py_strip_trimmed|]. split; intros A.
    + rewrite (py_lower_ascii u _ A). apply lower_ascii_lowercased.
    + apply (py_lower_beyond u _ A).
  - exists (py_strip raw). split; [reflexivity | apply py_strip_trimmed].
Qed.

Lemma parse_query_split_witness :
  (exists l r term ft,
      " Batman |MKV |x" = l ++ "|" ++ r /\ py_in "|" l = false
      /\ parse_query sample_python " Batman |MKV |x" = Ok (term, Some ft)
      /\ trimmed_of l term
      /\ no_capital ft = true
      /\ exists r',
           trimmed_of r r'
           /\ (is_ascii r' = true -> lowercased_of r' ft)
           /\ (is_ascii r' = false -> ft = str_lower sample_python r'))
  /\ (exists term,
        parse_query sample_python (nbsp ++ "batman" ++ nbsp) = Ok (term, None)
        /\ trimmed_of (nbsp ++ "batman" ++ nbsp) term).
Proof.
  split.
  - apply (proj1 (parse_query_split sample_python " Batman |MKV |x")). reflexivity.
  - apply (proj2 (parse_query_split sample_python (nbsp ++ "batman" ++ nbsp))).
    reflexivity.
Defined.

(** ** The gates *)

Lemma run_denied (cfg : Config) (w : World) (q : InlineQuery) :
  inline_users cfg q = false ->
  run cfg w q
  = (send w access_denied, {| trace := [CallAnswer access_denied]; heap := [] |}).
Proof. intros Hd. unfold run, answer. rewrite Hd. reflexivity. Qed.

Lemma run_unsubscribed (cfg : Config) (w : World) (q : InlineQuery) :
  inline_users cfg q = true ->
  truthy_opt_int (AUTH_CHANNEL cfg) = true ->
  is_subscribed w q = Ok false ->
  run cfg w q
  = (send w not_subscribed,
     {| trace := [CallIsSubscribed; CallAnswer not_subscribed]; heap := [] |}).
Proof.
  intros Ha Hc Hs. unfold run, answer. rewrite Ha, Hc. simpl.
  unfold bind, emit, lift. simpl. rewrite Hs. reflexivity.
Qed.

Lemma run_admitted (cfg : Config) (w : World) (q : InlineQuery) :
  inline_users cfg q = true ->
  truthy_opt_int (AUTH_CHANNEL cfg) = false ->
  run cfg w q = search_and_respond cfg w q init.
Proof. intros Ha Hc. unfold run, answer. rewrite Ha, Hc. reflexivity. Qed.

Lemma run_subscribed (cfg : Config) (w : World) (q : InlineQuery) :
  inline_users cfg q = true ->
  truthy_opt_int (AUTH_CHANNEL cfg) = true ->
  is_subscribed w q = Ok true ->
  run cfg w q
  = search_and_respond cfg w q {| trace := [CallIsSubscribed]; heap := [] |}.
Proof.
  intros Ha Hc Hs. unfold run, answer. rewrite Ha, Hc. simpl.
  unfold bind at 1. unfold bind at 1. unfold emit, lift. simpl. rewrite Hs.
  reflexivity.
Qed.

(** C4.  A query refused by the access gate gets one reply: no results,
    cache time 0 whatever the configured default is, and a prompt to switch
    to the private chat. *)
Theorem denial_reply (cfg : Config) (w : World) (q : InlineQuery) :
  inline_users cfg q = false ->
  trace (snd (run cfg w q)) = [CallAnswer access_denied]
  /\ fst (run cfg w q) = send w access_denied
  /\ Reply.results access_denied = []
  /\ Reply.cache_time access_denied = 0
  /\ Reply.switch_pm_text access_denied = "okDa"
  /\ Reply.switch_pm_parameter access_denied = "hehe".
Proof.
  intros Hd. rewrite (run_denied cfg w q Hd). repeat split.
Qed.

Lemma denial_reply_witness :
  trace (snd (run open_cfg quiet_world banned_query)) = [CallAnswer access_denied]
  /\ fst (run open_cfg quiet_world banned_query) = send quiet_world access_denied
  /\ Reply.results access_denied = []
  /\ Reply.cache_time access_denied = 0
  /\ Reply.switch_pm_text access_denied = "okDa"
  /\ Reply.switch_pm_parameter access_denied = "hehe".
Proof.
  apply (denial_reply open_cfg quiet_world banned_query). reflexivity.
Defined.

(** C5.  The subscription check happens only for a query the access gate
    admitted, and the search is not called when a gate refuses: a trace with
    a search comes from a query admitted by the access gate and, when a
    channel is configured, found subscribed. *)
Theorem gates_before_search (cfg : Config) (w : World) (q : InlineQuery) :
  let t := trace (snd (run cfg w q)) in
  (checked_subscription t = true -> inline_users cfg q = true)
  /\ (inline_users cfg q = false -> searched t = false)
  /\ (inline_users cfg q = true ->
      truthy_opt_int (AUTH_CHANNEL cfg) = true ->
      is_subscribed w q = Ok false ->
      t = [CallIsSubscribed; CallAnswer not_subscribed] /\ searched t = false)
  /\ (searched t = true ->
      inline_users cfg q = true
      /\ (truthy_opt_int (AUTH_CHANNEL cfg) = true -> is_subscribed w q = Ok true)).
Proof.
  cbv zeta.
  destruct (inline_users cfg q) eqn:Ha.
  2:{ rewrite (run_denied cfg w q Ha). simpl. repeat split; discriminate. }
  split; [reflexivity|]. split; [discriminate|].
  destruct (truthy_opt_int (AUTH_CHANNEL cfg)) eqn:Hc.
  2:{ repeat split; discriminate. }
  destruct (is_subscribed w q) as [[|]|e|] eqn:Hs.
  - repeat split; congruence.
  - rewrite (run_unsubscribed cfg w q Ha Hc Hs). simpl. repeat split; discriminate.
  - unfold run, answer. rewrite Ha, Hc. simpl. unfold bind, emit, lift. simpl.
    rewrite Hs. simpl. repeat split; discriminate.
  - unfold run, answer. rewrite Ha, Hc. simpl. unfold bind, emit, lift. simpl.
    rewrite Hs. simpl. repeat split; discriminate.
Qed.

Lemma gates_before_search_witness :
  trace (snd (run channel_cfg unsubscribed_world (user_query "batman" None)))
  = [CallIsSubscribed; CallAnswer not_subscribed]
  /\ searched (trace (snd (run channel_cfg unsubscribed_world (user_query "batman" None))))
     = false.
Proof.
  apply (gates_before_search channel_cfg unsubscribed_world (user_query "batman" None));
    reflexivity.
Defined.

(** ** The loop over the files *)

Section Loop.

Variable cfg : Config.
Variable w : World.

Lemma extend_nil (s : state) : extend s [] = s.
Proof. destruct s. unfold extend. simpl. now rewrite app_nil_r. Qed.

Lemma extend_extend (s : state) (t u : list event) :
  extend (extend s t) u = extend s (t ++ u)%list.
Proof. unfold extend. simpl. now rewrite app_assoc. Qed.

Lemma logs_only_ret {A : Type} (a : A) : logs_only (ret a).
Proof. exists (Ok a), []. split; [reflexivity|]. intros s. now rewrite extend_nil. Qed.

Lemma logs_only_lift {A : Type} (r : result A) : logs_only (lift r).
Proof. exists r, []. split; [reflexivity|]. intros s. now rewrite extend_nil. Qed.

Lemma logs_only_log (e : exn) : logs_only (emit (LogException e)).
Proof. exists (Ok tt), [LogException e]. split; reflexivity. Qed.

Lemma logs_only_bind {A B : Type} (m : M A) (k : A -> M B) :
  logs_only m -> (forall a, logs_only (k a)) -> logs_only (bind m k).
Proof.
  intros (r & t & Ht & Hm) Hk. destruct r as [a|e|].
  - destruct (Hk a) as (r' & t' & Ht' & Hk'). exists r', (t ++ t')%list. split.
    + rewrite forallb_app, Ht, Ht'. reflexivity.
    + intros s. unfold bind. rewrite Hm, Hk'. now rewrite extend_extend.
  - exists (Raise e), t. split; [assumption|]. intros s. unfold bind. now rewrite Hm.
  - exists Unmodelled, t. split; [assumption|]. intros s. unfold bind. now rewrite Hm.
Qed.

Lemma logs_only_try {A : Type} (m : M A) (h : exn -> option (M A)) :
  logs_only m -> (forall e k, h e = Some k -> logs_only k) ->
  logs_only (try_except m h).
Proof.
  intros (r & t & Ht & Hm) Hh. destruct r as [a|e|].
  - exists (Ok a), t. split; [assumption|]. intros s. unfold try_except. now rewrite Hm.
  - destruct (h e) as [k|] eqn:E.
    + destruct (Hh e k E) as (r' & t' & Ht' & Hk'). exists r', (t ++ t')%list. split.
      * rewrite forallb_app, Ht, Ht'. reflexivity.
      * intros s. unfold try_except. rewrite Hm, E, Hk'. now rewrite extend_extend.
    + exists (Raise e), t. split; [assumption|]. intros s. unfold try_except.
      now rewrite Hm, E.
  - exists Unmodelled, t. split; [assumption|]. intros s. unfold try_except.
    now rewrite Hm.
Qed.

Lemma logs_only_template_step (title size f_caption : option string) :
  logs_only (template_step cfg w title size f_caption).
Proof.
  unfold template_step.
  destruct (CUSTOM_FILE_CAPTION cfg) as [template|]; [|apply logs_only_ret].
  destruct (truthy template); [|apply logs_only_ret].
  apply logs_only_try.
  - apply logs_only_bind; [apply logs_only_lift | intros; apply logs_only_ret].
  - intros e k. destruct (is_Exception e); [|discriminate].
    intros [= <-]. apply logs_only_bind; [apply logs_only_log | intros; apply logs_only_ret].
Qed.

Lemma logs_only_display (rm : markup_ref) (file : Media.t) :
  logs_only (display cfg w rm file).
Proof.
  unfold display.
  apply logs_only_bind; [apply logs_only_lift | intros size].
  apply logs_only_bind; [apply logs_only_template_step | intros c].
  apply logs_only_bind; [apply logs_only_lift | intros; apply logs_only_ret].
Qed.

Lemma logs_only_display_all (rm : markup_ref) (files : list Media.t) :
  logs_only (display_all cfg w rm files).
Proof.
  induction files as [|file rest IH]; simpl; [apply logs_only_ret|].
  apply logs_only_bind; [apply logs_only_display | intros d].
  apply logs_only_bind; [exact IH | intros; apply logs_only_ret].
Qed.

(** What one iteration returns, when it returns. *)
Lemma display_Ok (rm : markup_ref) (file : Media.t) (s s' : state)
    (d : InlineQueryResultCachedDocument) :
  display cfg w rm file s = (Ok d, s') ->
  reply_markup d = rm
  /\ title d = Media.file_name file
  /\ document_file_id d = Media.file_id file.
Proof.
  unfold display, bind, lift, ret.
  destruct (get_size w (Media.file_size file)); try discriminate.
  destruct (template_step cfg w _ _ _ s) as [[c|e|] s1]; try discriminate.
  intros [= <- _]. repeat split.
Qed.

Lemma display_all_Ok (rm : markup_ref) (files : list Media.t) :
  forall (s s' : state) (ds : list InlineQueryResultCachedDocument),
    display_all cfg w rm files s = (Ok ds, s') ->
    List.length ds = List.length files
    /\ Forall (fun d => reply_markup d = rm) ds.
Proof.
  induction files as [|file rest IH]; simpl; intros s s' ds.
  - intros [= <- _]. split; [reflexivity | constructor].
  - unfold bind at 1.
    destruct (display cfg w rm file s) as [[d|e|] s1] eqn:Hd; try discriminate.
    unfold bind.
    destruct (display_all cfg w rm rest s1) as [[ds'|e|] s2] eqn:Hr; try discriminate.
    intros [= <- _]. destruct (IH _ _ _ Hr) as (Hlen & Hall).
    split; [simpl; now rewrite Hlen|].
    constructor; [|assumption]. now destruct (display_Ok _ _ _ _ _ Hd).
Qed.

End Loop.

(** ** The replies of a run *)

Section Replies.

Variable cfg : Config.
Variable w : World.

Lemma sent_app (t u : list event) : sent (t ++ u) = (sent t ++ sent u)%list.
Proof.
  induction t as [|ev t IH]; simpl; [reflexivity|].
  destruct ev; simpl; now rewrite IH.
Qed.

Lemma sent_logs (t : list event) : forallb is_log t = true -> sent t = [].
Proof.
  induction t as [|ev t IH]; simpl; [reflexivity|].
  destruct ev; simpl; try discriminate. exact IH.
Qed.

Lemma searched_app (t u : list event) :
  searched (t ++ u) = searched t || searched u.
Proof. apply existsb_app. Qed.

Lemma searched_logs (t : list event) : forallb is_log t = true -> searched t = false.
Proof.
  induction t as [|ev t IH]; simpl; [reflexivity|].
  destruct ev; simpl; try discriminate. exact IH.
Qed.

Lemma query_answer_run (r : Reply.t) (s : state) :
  query_answer w r s = (send w r, extend s [CallAnswer r]).
Proof. reflexivity. Qed.

(** The reply of lines 115-143: one call of [query.answer], followed by at
    most one log entry. *)
Lemma respond_sent (ds : list InlineQueryResultCachedDocument)
    (no : offset_token) (total : Z) (term : string) (s : state) :
  exists r tl,
    snd (respond cfg w ds no total term s) = extend s (CallAnswer r :: tl)
    /\ forallb is_log tl = true
    /\ Reply.results r = ds
    /\ Reply.is_personal r = Some true
    /\ Reply.cache_time r = 0
    /\ Reply.switch_pm_text r
       = (if truthy_list ds then results_text total term else no_results_text term).
Proof.
  unfold respond. destruct ds as [|d ds]; cbn [truthy_list].
  - eexists _, []. rewrite query_answer_run. repeat split.
  - unfold try_except. rewrite query_answer_run.
    set (reply := found_reply cfg (d :: ds) no total term).
    destruct (send w reply) as [[]|e|].
    + exists reply, []. repeat split.
    + destruct e; simpl;
        first [ exists reply, []; repeat split; fail
              | eexists reply, [_]; unfold emit, extend; simpl;
                rewrite <- app_assoc; repeat split ].
    + exists reply, []. repeat split.
Qed.

(** The path through lines 65-143 when parsing and the search succeed. *)
Lemma search_and_respond_run (q : InlineQuery) (term : string)
    (ft : option string) (off : Z) (files : list Media.t) (no : offset_token)
    (total : Z) (s : state) :
  parse_query (python w) (query q) = Ok (term, ft) ->
  parse_offset (python w) (offset q) = Ok off ->
  get_search_results w term ft 10 off = Ok (files, no, total) ->
  search_and_respond cfg w q s
  = bind (display_all cfg w (List.length (heap s)) files)
         (fun results => respond cfg w results no total term)
         {| trace := trace s ++ [CallSearch term ft 10 off];
            heap := heap s ++ [ {| inline_keyboard := buttons term |} ] |}.
Proof.
  intros Hp Ho Hs. unfold search_and_respond.
  unfold bind at 1. unfold lift at 1. rewrite Hp.
  unfold bind at 1. unfold lift at 1. rewrite Ho.
  unfold bind at 1. unfold get_reply_markup, new_markup.
  unfold bind at 1. unfold emit at 1.
  unfold bind at 1. unfold lift at 1. rewrite Hs.
  reflexivity.
Qed.

(** Where the handler stops when the offset or the search fails. *)
Lemma search_and_respond_stops (q : InlineQuery) (term : string)
    (ft : option string) (s : state) :
  parse_query (python w) (query q) = Ok (term, ft) ->
  (forall off, parse_offset (python w) (offset q) <> Ok off) ->
  snd (search_and_respond cfg w q s) = s.
Proof.
  intros Hp Ho. unfold search_and_respond.
  unfold bind at 1. unfold lift at 1. rewrite Hp.
  unfold bind at 1. unfold lift at 1.
  destruct (parse_offset (python w) (offset q)) as [off|e|];
    [now destruct (Ho off) | reflexivity..].
Qed.

Lemma search_and_respond_search_fails (q : InlineQuery) (term : string)
    (ft : option string) (off : Z) (s : state) :
  parse_query (python w) (query q) = Ok (term, ft) ->
  parse_offset (python w) (offset q) = Ok off ->
  (forall found, get_search_results w term ft 10 off <> Ok found) ->
  snd (search_and_respond cfg w q s)
  = {| trace := trace s ++ [CallSearch term ft 10 off];
       heap := heap s ++ [ {| inline_keyboard := buttons term |} ] |}.
Proof.
  intros Hp Ho Hs. unfold search_and_respond.
  unfold bind at 1. unfold lift at 1. rewrite Hp.
  unfold bind at 1. unfold lift at 1. rewrite Ho.
  unfold bind at 1. unfold get_reply_markup, new_markup.
  unfold bind at 1. unfold emit at 1.
  unfold bind at 1. unfold lift at 1.
  destruct (get_search_results w term ft 10 off) as [found|e|];
    [now destruct (Hs found) | reflexivity..].
Qed.

Lemma search_and_respond_bad_offset (q : InlineQuery) (s : state) :
  parse_offset (python w) (offset q) = Raise ValueError ->
  search_and_respond cfg w q s = (Raise ValueError, s).
Proof.
  intros Ho. destruct (parse_query_total (python w) (query q)) as (term & ft & Hp).
  unfold search_and_respond.
  unfold bind at 1. unfold lift at 1. rewrite Hp.
  unfold bind at 1. unfold lift at 1. rewrite Ho. reflexivity.
Qed.

(** Whatever happens on lines 65-143, from a state without keyboards: either
    nothing was allocated and nothing sent, or the one keyboard of the term
    was allocated and at most one reply sent, all of whose results refer to
    that keyboard. *)
Lemma search_and_respond_sent (q : InlineQuery) (s : state) :
  heap s = [] ->
  exists term ft,
    parse_query (python w) (query q) = Ok (term, ft)
    /\ let s' := snd (search_and_respond cfg w q s) in
       s' = s
       \/ (heap s' = [ {| inline_keyboard := buttons term |} ]
           /\ (sent (trace s') = sent (trace s)
               \/ exists r,
                   sent (trace s') = (sent (trace s) ++ [r])%list
                   /\ Forall (fun d => reply_markup d = 0%nat) (Reply.results r))).
Proof.
  intros Hh. destruct (parse_query_total (python w) (query q)) as (term & ft & Hp).
  exists term, ft. split; [exact Hp|]. cbv zeta.
  destruct (parse_offset (python w) (offset q)) as [off|e|] eqn:Ho.
  2,3: left; rewrite (search_and_respond_stops q term ft s Hp);
       [reflexivity | rewrite Ho; discriminate].
  right.
  destruct (get_search_results w term ft 10 off) as [[[files no] total]|e|] eqn:Hs.
  2,3: rewrite (search_and_respond_search_fails q term ft off s Hp Ho);
       [|rewrite Hs; discriminate];
       simpl; rewrite Hh, sent_app; simpl; rewrite app_nil_r; auto.
  rewrite (search_and_respond_run q term ft off files no total s Hp Ho Hs).
  rewrite Hh. simpl List.length. simpl app.
  set (s1 := {| trace := _; heap := _ |}).
  destruct (logs_only_display_all cfg w 0%nat files) as (rd & tl & Htl & Hd).
  unfold bind. rewrite Hd.
  assert (Hs1 : sent (trace (extend s1 tl)) = sent (trace s)).
  { unfold extend, s1. simpl. rewrite !sent_app, (sent_logs tl Htl). simpl.
    now rewrite !app_nil_r. }
  destruct rd as [ds|e|]; simpl; [|split; [reflexivity | left; exact Hs1]..].
  destruct (respond_sent ds no total term (extend s1 tl))
    as (r & tl' & -> & Htl' & Hr & _).
  split; [reflexivity|]. right. exists r. split.
  - change (trace (extend (extend s1 tl) (CallAnswer r :: tl')))
      with (trace (extend s1 tl) ++ CallAnswer r :: tl')%list.
    rewrite sent_app, Hs1. simpl.
    now rewrite (sent_logs tl' Htl').
  - rewrite Hr. specialize (Hd s1).
    now destruct (display_all_Ok cfg w 0%nat files _ _ _ Hd).
Qed.

End Replies.

(** ** The keyboard *)

Lemma run_cases (cfg : Config) (w : World) (q : InlineQuery) :
  (forall r, In r (sent (trace (snd (run cfg w q)))) -> Reply.results r = [])
  \/ exists s0,
       heap s0 = [] /\ sent (trace s0) = []
       /\ run cfg w q = search_and_respond cfg w q s0.
Proof.
  destruct (inline_users cfg q) eqn:Ha.
  2:{ left. rewrite (run_denied cfg w q Ha). simpl. intros r [<-|[]]. reflexivity. }
  destruct (truthy_opt_int (AUTH_CHANNEL cfg)) eqn:Hc.
  2:{ right. exists init. repeat split. now apply run_admitted. }
  destruct (is_subscribed w q) as [[|]|e|] eqn:Hs.
  - right. eexists. split; [|split; [|now apply run_subscribed]]; reflexivity.
  - left. rewrite (run_unsubscribed cfg w q Ha Hc Hs). simpl.
    intros r [<-|[]]. reflexivity.
  - left. unfold run, answer. rewrite Ha, Hc. simpl. unfold bind, emit, lift. simpl.
    rewrite Hs. simpl. intros r [].
  - left. unfold run, answer. rewrite Ha, Hc. simpl. unfold bind, emit, lift. simpl.
    rewrite Hs. simpl. intros r [].
Qed.

(** C9.  Every result of every reply of a run refers to the same keyboard:
    the only one allocated during the run.  That keyboard has exactly two
    rows of one button: the link to the channel and "Search again", whose
    inline payload is the trimmed search term of the query. *)
Theorem reply_markup_shared (cfg : Config) (w : World) (q : InlineQuery)
    (r : Reply.t) (d : InlineQueryResultCachedDocument) :
  In r (sent (trace (snd (run cfg w q)))) ->
  In d (Reply.results r) ->
  exists term file_type b1 b2,
    parse_query (python w) (query q) = Ok (term, file_type)
    /\ heap (snd (run cfg w q)) = [ {| inline_keyboard := [[b1]; [b2]] |} ]
    /\ reply_markup d = 0%nat
    /\ url b1 = Some "https://t.me/+KJHSwIdswKUwZjU1"
    /\ switch_inline_query_current_chat b1 = None
    /\ text b2 = "Search again"
    /\ url b2 = None
    /\ switch_inline_query_current_chat b2 = Some term.
Proof.
  intros Hr Hd.
  destruct (run_cases cfg w q) as [Hempty | (s0 & Hh & Hsent & Hrun)].
  { rewrite (Hempty r Hr) in Hd. destruct Hd. }
  rewrite Hrun in Hr |- *.
  destruct (search_and_respond_sent cfg w q s0 Hh) as (term & ft & Hp & Hcases).
  cbv zeta in Hcases. rewrite Hsent in Hcases.
  destruct Hcases as [E | (Hheap & [E | (r' & E & Hall)])].
  - rewrite E, Hsent in Hr. destruct Hr.
  - rewrite E in Hr. destruct Hr.
  - rewrite E in Hr. destruct Hr as [<-|[]].
    rewrite Forall_forall in Hall.
    eexists term, ft, _, _. split; [exact Hp|]. split; [exact Hheap|].
    split; [exact (Hall d Hd)|]. repeat split.
Qed.

Lemma reply_markup_shared_witness :
  exists term file_type b1 b2,
    parse_query (python batman_world) (query batman_query) = Ok (term, file_type)
    /\ heap (snd (run open_cfg batman_world batman_query))
       = [ {| inline_keyboard := [[b1]; [b2]] |} ]
    /\ reply_markup batman_result = 0%nat
    /\ url b1 = Some "https://t.me/+KJHSwIdswKUwZjU1"
    /\ switch_inline_query_current_chat b1 = None
    /\ text b2 = "Search again"
    /\ url b2 = None
    /\ switch_inline_query_current_chat b2 = Some term.
Proof.
  apply (reply_markup_shared open_cfg batman_world batman_query
           batman_reply batman_result).
  - vm_compute. left. reflexivity.
  - vm_compute. left. reflexivity.
Defined.

(** ** The prompt *)

Lemma is_prefix_spec (x s : string) :
  is_prefix x s = true <-> exists b, s = x ++ b.
Proof.
  revert s. induction x as [|c x IH]; intros s; simpl.
  - split; [intros _; now exists s | reflexivity].
  - destruct s as [|d s].
    + split; [discriminate | intros (b & Hb); discriminate].
    + rewrite andb_true_iff, Ascii.eqb_eq, IH. split.
      * intros (-> & b & ->). now exists b.
      * intros (b & [= -> ->]). split; [reflexivity | now exists b].
Qed.

Lemma occurs_spec (x s : string) : occurs x s = true <-> Contains x s.
Proof.
  unfold Contains. induction s as [|d s IH].
  - simpl. rewrite orb_false_r, is_prefix_spec. split.
    + intros (b & Hb). now exists "", b.
    + intros (a & b & Hab). destruct a; [now exists b | discriminate].
  - cbn [occurs]. rewrite orb_true_iff, is_prefix_spec, IH. split.
    + intros [(b & Hb) | (a & b & ->)]; [now exists "", b | now exists (String d a), b].
    + intros (a & b & Hab). destruct a as [|c a].
      * left. now exists b.
      * right. injection Hab as _ ->. now exists a, b.
Qed.

Lemma results_text_form (total : Z) (term : string) :
  results_text total term
  = emoji.FILE_FOLDER ++ " Results - " ++ of_Z total
    ++ (if truthy term then " for " ++ term else "").
Proof.
  unfold results_text. destruct (truthy term).
  - now rewrite !append_assoc.
  - now rewrite append_nil_r.
Qed.

Lemma no_results_text_form (term : string) :
  no_results_text term
  = emoji.CROSS_MARK ++ " " ++ "No results"
    ++ (if truthy term then " for " ++ dquote ++ term ++ dquote else "").
Proof.
  unfold no_results_text. destruct (truthy term).
  - now rewrite !append_assoc.
  - now rewrite append_nil_r.
Qed.

Lemma truthy_nonempty (s : string) : truthy s = true <-> s <> "".
Proof. destruct s; simpl; split; congruence. Qed.

Section Prompt.

Variable cfg : Config.
Variable w : World.

(** The reply of lines 65-143 when parsing, the search and the loop
    succeed. *)
Lemma search_and_respond_reply (q : InlineQuery) (term : string)
    (ft : option string) (off : Z) (files : list Media.t) (no : offset_token)
    (total : Z) (ds : list InlineQueryResultCachedDocument) (s : state) :
  heap s = [] ->
  parse_query (python w) (query q) = Ok (term, ft) ->
  parse_offset (python w) (offset q) = Ok off ->
  get_search_results w term ft 10 off = Ok (files, no, total) ->
  fst (display_all cfg w 0%nat files init) = Ok ds ->
  exists r,
    sent (trace (snd (search_and_respond cfg w q s))) = (sent (trace s) ++ [r])%list
    /\ searched (trace (snd (search_and_respond cfg w q s))) = true
    /\ Reply.results r = ds
    /\ List.length ds = List.length files
    /\ Reply.is_personal r = Some true
    /\ Reply.cache_time r = 0
    /\ Reply.switch_pm_text r
       = (if truthy_list files then results_text total term else no_results_text term).
Proof.
  intros Hh Hp Ho Hs Hds.
  rewrite (search_and_respond_run cfg w q term ft off files no total s Hp Ho Hs).
  rewrite Hh. simpl List.length. simpl app.
  set (s1 := {| trace := _; heap := _ |}).
  destruct (logs_only_display_all cfg w 0%nat files) as (rd & tl & Htl & Hd).
  rewrite Hd in Hds. simpl in Hds. subst rd.
  unfold bind. rewrite Hd.
  destruct (respond_sent cfg w ds no total term (extend s1 tl))
    as (r & tl' & -> & Htl' & Hr & Hpers & Hcache & Htext).
  destruct (display_all_Ok cfg w 0%nat files _ _ _ (Hd s1)) as (Hlen & _).
  exists r.
  change (trace (extend (extend s1 tl) (CallAnswer r :: tl')))
    with (((trace s ++ [CallSearch term ft 10 off]) ++ tl) ++ CallAnswer r :: tl')%list.
  repeat split; try assumption.
  - rewrite !sent_app, (sent_logs tl Htl). simpl. rewrite (sent_logs tl' Htl').
    now rewrite !app_nil_r.
  - rewrite !searched_app. simpl. now rewrite orb_true_r.
  - rewrite Htext. destruct ds, files; try discriminate; reflexivity.
Qed.

End Prompt.

(** C7, as the code has it.  When the handler replies after a search: with
    no file found the prompt is the cross mark and "No results", followed,
    for a non-empty term, by the term between double quotes; with files found
    the prompt shows the [total] reported by the search (which need not be
    the number of results in the reply), followed, for a non-empty term, by
    the bare term. *)
Theorem prompt_text (cfg : Config) (w : World) (q : InlineQuery)
    (term : string) (ft : option string) (off : Z) (files : list Media.t)
    (no : offset_token) (total : Z) (ds : list InlineQueryResultCachedDocument) :
  inline_users cfg q = true ->
  (truthy_opt_int (AUTH_CHANNEL cfg) = true -> is_subscribed w q = Ok true) ->
  parse_query (python w) (query q) = Ok (term, ft) ->
  parse_offset (python w) (offset q) = Ok off ->
  get_search_results w term ft 10 off = Ok (files, no, total) ->
  fst (display_all cfg w 0%nat files init) = Ok ds ->
  exists r,
    sent (trace (snd (run cfg w q))) = [r]
    /\ List.length (Reply.results r) = List.length files
    /\ (files = [] ->
        Contains "No results" (Reply.switch_pm_text r)
        /\ Reply.switch_pm_text r
           = emoji.CROSS_MARK ++ " No results"
             ++ (if truthy term then " for " ++ dquote ++ term ++ dquote else ""))
    /\ (files <> [] ->
        Contains (of_Z total) (Reply.switch_pm_text r)
        /\ Reply.switch_pm_text r
           = emoji.FILE_FOLDER ++ " Results - " ++ of_Z total
             ++ (if truthy term then " for " ++ term else "")).
Proof.
  intros Ha Hsub Hp Ho Hs Hds.
  assert (Hrun : exists s0, heap s0 = [] /\ sent (trace s0) = []
                            /\ run cfg w q = search_and_respond cfg w q s0).
  { destruct (truthy_opt_int (AUTH_CHANNEL cfg)) eqn:Hc.
    - eexists. split; [|split; [|apply run_subscribed; auto]]; reflexivity.
    - exists init. repeat split. now apply run_admitted. }
  destruct Hrun as (s0 & Hh & Hsent & ->).
  destruct (search_and_respond_reply cfg w q term ft off files no total ds s0
              Hh Hp Ho Hs Hds)
    as (r & Hr & _ & Hres & Hlen & _ & _ & Htext).
  exists r. rewrite Hr, Hsent, Hres. split; [reflexivity|]. split; [exact Hlen|].
  split.
  - intros ->. simpl in Htext. rewrite Htext, no_results_text_form. split.
    + eexists _, _. rewrite <- append_assoc. reflexivity.
    + reflexivity.
  - intros Hne. apply truthy_list_nonempty in Hne. rewrite Hne in Htext.
    rewrite Htext, results_text_form. split.
    + eexists _, _. rewrite <- append_assoc. reflexivity.
    + reflexivity.
Qed.

Lemma prompt_text_witness :
  exists r,
    sent (trace (snd (run open_cfg batman_world batman_query))) = [r]
    /\ List.length (Reply.results r) = 2%nat
    /\ ([batman_1; batman_2] = [] ->
        Contains "No results" (Reply.switch_pm_text r)
        /\ Reply.switch_pm_text r
           = emoji.CROSS_MARK ++ " No results"
             ++ (if truthy "batman" then " for " ++ dquote ++ "batman" ++ dquote else ""))
    /\ ([batman_1; batman_2] <> [] ->
        Contains (of_Z 57) (Reply.switch_pm_text r)
        /\ Reply.switch_pm_text r
           = emoji.FILE_FOLDER ++ " Results - " ++ of_Z 57
             ++ (if truthy "batman" then " for " ++ "batman" else "")).
Proof.
  apply (prompt_text open_cfg batman_world batman_query "batman" (Some "mkv") 0
           [batman_1; batman_2] (TokInt 10) 57 (Reply.results batman_reply)).
  - reflexivity.
  - discriminate.
  - reflexivity.
  - reflexivity.
  - reflexivity.
  - reflexivity.
Defined.

(** C7 as stated fails: two results are returned, the search reports 57
    files in all, and the prompt reads "Results - 57 for batman": the count
    of returned results, 2, does not occur in it. *)
Lemma prompt_count_counterexample :
  exists r,
    sent (trace (snd (run open_cfg batman_world batman_query))) = [r]
    /\ List.length (Reply.results r) = 2%nat
    /\ ~ Contains (of_Z 2) (Reply.switch_pm_text r).
Proof.
  exists batman_reply. split; [reflexivity|]. split; [reflexivity|].
  rewrite <- occurs_spec. vm_compute. discriminate.
Qed.

(** ** The offset *)

Section Decimal.

Lemma digits_step (prev : bool) (acc : Z) (c : ascii) (s : string) :
  is_digit c = true ->
  digits prev acc (String c s) = digits true (10 * acc + digit_val c) s.
Proof. intros Hc. simpl. now rewrite Hc. Qed.

(** Reading the decimal digits of [d] after a non-zero prefix of value
    [acc]. *)
Lemma digits_of_uint_acc (d : Decimal.uint) :
  forall acc : positive,
    digits true (Z.pos acc) (NilEmpty.string_of_uint d)
    = Some (Z.pos (Pos.of_uint_acc d acc)).
Proof.
  induction d as [|d IH|d IH|d IH|d IH|d IH|d IH|d IH|d IH|d IH|d IH];
    intros acc; cbn [NilEmpty.string_of_uint Pos.of_uint_acc];
    [reflexivity
    | rewrite digits_step by reflexivity; rewrite <- IH; f_equal;
      unfold digit_val; simpl N_of_ascii; lia..].
Qed.

(** Reading the decimal digits of [d] from the start: leading zeros do not
    count. *)
Lemma digits_of_uint (d : Decimal.uint) :
  forall prev : bool,
    prev = true \/ d <> Decimal.Nil ->
    digits prev 0 (NilEmpty.string_of_uint d) = Some (Z.of_N (Pos.of_uint d)).
Proof.
  induction d as [|d IH|d IH|d IH|d IH|d IH|d IH|d IH|d IH|d IH|d IH];
    intros prev Hp; cbn [NilEmpty.string_of_uint Pos.of_uint].
  - destruct Hp as [-> | Hn]; [reflexivity | now destruct Hn].
  - rewrite digits_step by reflexivity. apply IH. now left.
  - rewrite digits_step by reflexivity. apply (digits_of_uint_acc d 1).
  - rewrite digits_step by reflexivity. apply (digits_of_uint_acc d 2).
  - rewrite digits_step by reflexivity. apply (digits_of_uint_acc d 3).
  - rewrite digits_step by reflexivity. apply (digits_of_uint_acc d 4).
  - rewrite digits_step by reflexivity. apply (digits_of_uint_acc d 5).
  - rewrite digits_step by reflexivity. apply (digits_of_uint_acc d 6).
  - rewrite digits_step by reflexivity. apply (digits_of_uint_acc d 7).
  - rewrite digits_step by reflexivity. apply (digits_of_uint_acc d 8).
  - rewrite digits_step by reflexivity. apply (digits_of_uint_acc d 9).
Qed.

Lemma uint_text_kept (d : Decimal.uint) :
  skip_blanks (NilEmpty.string_of_uint d) = NilEmpty.string_of_uint d
  /\ drop_last_blanks (NilEmpty.string_of_uint d) = NilEmpty.string_of_uint d
  /\ signed (NilEmpty.string_of_uint d) = digits false 0 (NilEmpty.string_of_uint d).
Proof.
  split; [now destruct d | split; [|now destruct d]].
  induction d as [|d IH|d IH|d IH|d IH|d IH|d IH|d IH|d IH|d IH|d IH];
    cbn [NilEmpty.string_of_uint drop_last_blanks];
    [reflexivity | rewrite IH; now destruct (NilEmpty.string_of_uint d)..].
Qed.

Lemma int_ascii_of_pos (p : positive) :
  int_ascii (NilEmpty.string_of_uint (Pos.to_uint p)) = Some (Z.pos p).
Proof.
  unfold int_ascii. destruct (uint_text_kept (Pos.to_uint p)) as (-> & -> & ->).
  rewrite digits_of_uint.
  - now rewrite DecimalPos.Unsigned.of_to.
  - right. apply DecimalPos.Unsigned.to_uint_nonnil.
Qed.

Lemma int_ascii_of_neg (p : positive) :
  int_ascii (String "-" (NilEmpty.string_of_uint (Pos.to_uint p))) = Some (Z.neg p).
Proof.
  unfold int_ascii. cbn [skip_blanks]. change (is_blank "-") with false. cbv iota.
  cbn [drop_last_blanks].
  destruct (uint_text_kept (Pos.to_uint p)) as (_ & -> & _).
  assert (E : match NilEmpty.string_of_uint (Pos.to_uint p) with
              | "" => if is_blank "-" then "" else "-"
              | String a s => String "-" (String a s)
              end = String "-" (NilEmpty.string_of_uint (Pos.to_uint p)))
    by now destruct (NilEmpty.string_of_uint (Pos.to_uint p)).
  rewrite E. cbn [signed]. rewrite digits_of_uint.
  - now rewrite DecimalPos.Unsigned.of_to.
  - right. apply DecimalPos.Unsigned.to_uint_nonnil.
Qed.

(** [int(str(n)) == n] for every integer. *)
Lemma int_ascii_of_Z (n : Z) : int_ascii (of_Z n) = Some n.
Proof.
  unfold of_Z. destruct n as [|p|p]; cbn [Z.to_int NilZero.string_of_int].
  - reflexivity.
  - unfold NilZero.string_of_uint.
    destruct (Pos.to_uint p) eqn:E;
      [now destruct (DecimalPos.Unsigned.to_uint_nonnil p)
      | rewrite <- E; apply int_ascii_of_pos..].
  - unfold NilZero.string_of_uint.
    destruct (Pos.to_uint p) eqn:E;
      [now destruct (DecimalPos.Unsigned.to_uint_nonnil p)
      | rewrite <- E; apply int_ascii_of_neg..].
Qed.

(** The text of an integer is ASCII and starts with a sign or a digit. *)
Lemma is_ascii_uint (d : Decimal.uint) : is_ascii (NilEmpty.string_of_uint d) = true.
Proof.
  induction d; cbn [NilEmpty.string_of_uint is_ascii]; [reflexivity | exact IHd..].
Qed.

Lemma is_ascii_of_Z (n : Z) : is_ascii (of_Z n) = true.
Proof.
  unfold of_Z. destruct (Z.to_int n) as [d|d]; cbn [NilZero.string_of_int].
  - unfold NilZero.string_of_uint. destruct d; try reflexivity; apply is_ascii_uint.
  - cbn [is_ascii]. unfold NilZero.string_of_uint.
    destruct d; try reflexivity; apply is_ascii_uint.
Qed.

Lemma of_Z_nonempty (n : Z) : truthy (of_Z n) = true.
Proof.
  destruct (of_Z n) eqn:E; [|reflexivity].
  pose proof (int_ascii_of_Z n) as P. rewrite E in P. discriminate.
Qed.

(** Blanks around the literal do not count. *)
Lemma all_blank_skip (a s : string) :
  all_blank a = true -> skip_blanks (a ++ s) = skip_blanks s.
Proof.
  induction a as [|c a IH]; cbn [all_blank append skip_blanks]; [reflexivity|].
  rewrite andb_true_iff. intros (-> & Ha). now apply IH.
Qed.

Lemma all_blank_drop (b : string) : all_blank b = true -> drop_last_blanks b = "".
Proof.
  induction b as [|c b IH]; cbn [all_blank drop_last_blanks]; [reflexivity|].
  rewrite andb_true_iff. intros (-> & Hb). now rewrite (IH Hb).
Qed.

Lemma drop_last_blanks_app (s b : string) :
  all_blank b = true -> drop_last_blanks (s ++ b) = drop_last_blanks s.
Proof.
  intros Hb. induction s as [|c s IH]; cbn [append drop_last_blanks].
  - now apply all_blank_drop.
  - now rewrite IH.
Qed.

Lemma skip_drop_app (s b : string) :
  all_blank b = true ->
  drop_last_blanks (skip_blanks (s ++ b)) = drop_last_blanks (skip_blanks s).
Proof.
  intros Hb. induction s as [|c s IH]; cbn [append skip_blanks].
  - rewrite <- (append_nil_r b), (all_blank_skip b "" Hb). reflexivity.
  - destruct (is_blank c); [exact IH|].
    apply (drop_last_blanks_app (String c s) b Hb).
Qed.

Lemma int_ascii_blanks (a s b : string) :
  all_blank a = true -> all_blank b = true ->
  int_ascii (a ++ s ++ b) = int_ascii s.
Proof.
  intros Ha Hb. unfold int_ascii.
  now rewrite (all_blank_skip a _ Ha), (skip_drop_app s b Hb).
Qed.

Lemma is_blank_ascii (c : ascii) : is_blank c = true -> (N_of_ascii c <? 128)%N = true.
Proof.
  unfold is_blank. cbv zeta.
  rewrite orb_true_iff, andb_true_iff, !N.leb_le, N.eqb_eq, N.ltb_lt. lia.
Qed.

Lemma all_blank_ascii (a : string) : all_blank a = true -> is_ascii a = true.
Proof.
  induction a as [|c a IH]; cbn [all_blank is_ascii]; [reflexivity|].
  rewrite andb_true_iff. intros (Hc & Ha). now rewrite (is_blank_ascii c Hc), IH.
Qed.

Lemma is_ascii_app (a b : string) : is_ascii (a ++ b) = is_ascii a && is_ascii b.
Proof.
  induction a as [|c a IH]; cbn [append is_ascii]; [reflexivity|].
  now rewrite IH, andb_assoc.
Qed.

(** A literal has a digit. *)
Lemma digits_has_digit (s : string) :
  forall (prev : bool) (acc n : Z),
    digits prev acc s = Some n -> has_digit s = true \/ s = "".
Proof.
  induction s as [|c s IH]; intros prev acc n; cbn [digits has_digit]; [now right|].
  destruct (is_digit c); [now left|]. cbn [orb].
  destruct (Ascii.eqb c "_"); [|discriminate].
  destruct prev; [|discriminate].
  intros H. destruct (IH _ _ _ H) as [Hd | ->]; [now left | discriminate H].
Qed.

Lemma signed_has_digit (s : string) (n : Z) :
  signed s = Some n -> has_digit s = true.
Proof.
  assert (D : forall t m, digits false 0 t = Some m -> has_digit t = true).
  { intros t m H. destruct (digits_has_digit _ _ _ _ H) as [Hd | ->];
      [exact Hd | discriminate H]. }
  destruct s as [|c t]; [discriminate|].
  destruct (Ascii.eqb_spec c "+") as [-> | Hp].
  { cbn [signed]. intros H. cbn [has_digit]. rewrite (D _ _ H). apply orb_true_r. }
  destruct (Ascii.eqb_spec c "-") as [-> | Hm].
  { cbn [signed]. destruct (digits false 0 t) as [m|] eqn:H; [|discriminate].
    intros _. cbn [has_digit]. rewrite (D _ _ H). apply orb_true_r. }
  assert (E : signed (String c t) = digits false 0 (String c t)).
  { destruct c as [[|] [|] [|] [|] [|] [|] [|] [|]]; try reflexivity; congruence. }
  rewrite E. apply D.
Qed.

Lemma has_digit_skip (s : string) :
  has_digit (skip_blanks s) = true -> has_digit s = true.
Proof.
  induction s as [|c s IH]; cbn [skip_blanks has_digit]; [discriminate|].
  destruct (is_blank c); [|exact (fun H => H)].
  intros H. rewrite (IH H). apply orb_true_r.
Qed.

Lemma has_digit_drop (s : string) :
  has_digit (drop_last_blanks s) = true -> has_digit s = true.
Proof.
  induction s as [|c s IH]; cbn [drop_last_blanks has_digit]; [discriminate|].
  destruct (drop_last_blanks s) as [|d t].
  - destruct (is_blank c); [discriminate|]. cbn [has_digit].
    rewrite orb_false_r. intros ->. reflexivity.
  - cbn [has_digit] in IH |- *. destruct (is_digit c); [reflexivity|].
    cbn [orb]. exact IH.
Qed.

Lemma int_ascii_has_digit (s : string) (n : Z) :
  int_ascii s = Some n -> has_digit s = true.
Proof.
  unfold int_ascii. intros H.
  apply has_digit_skip, has_digit_drop. exact (signed_has_digit _ _ H).
Qed.

End Decimal.

Lemma py_int_number (u : Python) (a b : string) (n : Z) :
  all_blank a = true -> all_blank b = true ->
  py_int u (a ++ of_Z n ++ b) = Some n.
Proof.
  intros Ha Hb. unfold py_int.
  rewrite !is_ascii_app, (all_blank_ascii a Ha), (all_blank_ascii b Hb), is_ascii_of_Z.
  cbn [andb]. rewrite (int_ascii_blanks a _ b Ha Hb). apply int_ascii_of_Z.
Qed.

Lemma py_int_non_numeric (u : Python) (tok : string) :
  non_numeric tok -> py_int u tok = None.
Proof.
  intros (_ & Ha & Hd). unfold py_int. rewrite Ha.
  destruct (int_ascii tok) as [n|] eqn:E; [|reflexivity].
  rewrite (int_ascii_has_digit _ _ E) in Hd. discriminate.
Qed.

Lemma parse_offset_reads (u : Python) (tok : string) (n : Z) :
  truthy tok = true -> py_int u tok = Some n -> parse_offset u (Some tok) = Ok n.
Proof. intros Ht Hn. unfold parse_offset. now rewrite Ht, Hn. Qed.

(** C2, as the code has it.  An absent or empty token gives offset 0.  A
    token that is the text of an integer, blanks around it or not, gives that
    integer, and so does whatever else [int] reads.  A token that is not
    numeric, ASCII text without a digit, or any other token that [int]
    rejects, is not recovered: [ValueError] is raised on line 75, nothing
    catches it, and a handler that had passed both gates ends with that
    exception, having neither searched nor replied. *)
Theorem offset_parsing (cfg : Config) (w : World) (q : InlineQuery) :
  (offset q = None \/ offset q = Some "" -> parse_offset (python w) (offset q) = Ok 0)
  /\ (forall a n b,
        all_blank a = true -> all_blank b = true ->
        offset q = Some (a ++ of_Z n ++ b) ->
        parse_offset (python w) (offset q) = Ok n)
  /\ (forall tok n,
        offset q = Some tok -> tok <> "" -> py_int (python w) tok = Some n ->
        parse_offset (python w) (offset q) = Ok n)
  /\ (forall tok,
        offset q = Some tok ->
        non_numeric tok \/ (tok <> "" /\ py_int (python w) tok = None) ->
        parse_offset (python w) (offset q) = Raise ValueError
        /\ (inline_users cfg q = true ->
            (truthy_opt_int (AUTH_CHANNEL cfg) = true -> is_subscribed w q = Ok true) ->
            fst (run cfg w q) = Raise ValueError
            /\ sent (trace (snd (run cfg w q))) = []
            /\ searched (trace (snd (run cfg w q))) = false)).
Proof.
  split; [|split; [|split]].
  - intros [-> | ->]; reflexivity.
  - intros a n b Ha Hb ->. apply parse_offset_reads; [|now apply py_int_number].
    destruct a as [|c a]; [|reflexivity]. cbn [append].
    pose proof (of_Z_nonempty n) as H. now destruct (of_Z n).
  - intros tok n -> Hne Hn. apply parse_offset_reads; [|exact Hn].
    now apply truthy_nonempty.
  - intros tok Htok Hbad.
    assert (Hne : tok <> "" /\ py_int (python w) tok = None).
    { destruct Hbad as [Hn | Hn]; [|exact Hn].
      split; [apply Hn | now apply py_int_non_numeric]. }
    destruct Hne as (Hne & Hnone).
    assert (Ho : parse_offset (python w) (offset q) = Raise ValueError).
    { rewrite Htok. unfold parse_offset. apply truthy_nonempty in Hne.
      now rewrite Hne, Hnone. }
    split; [exact Ho|]. intros Ha Hsub.
    destruct (truthy_opt_int (AUTH_CHANNEL cfg)) eqn:Hc.
    + rewrite (run_subscribed cfg w q Ha Hc (Hsub eq_refl)).
      rewrite (search_and_respond_bad_offset cfg w q _ Ho). repeat split.
    + rewrite (run_admitted cfg w q Ha Hc).
      rewrite (search_and_respond_bad_offset cfg w q _ Ho). repeat split.
Qed.

Lemma offset_parsing_witness :
  parse_offset sample_python (offset (user_query "batman" None)) = Ok 0
  /\ parse_offset sample_python (offset (user_query "batman" (Some " 20 "))) = Ok 20
  /\ parse_offset sample_python (offset (user_query "batman" (Some arabic_12))) = Ok 12
  /\ parse_offset sample_python (offset (user_query "batman" (Some "abc")))
     = Raise ValueError
  /\ fst (run open_cfg quiet_world (user_query "batman" (Some "abc"))) = Raise ValueError
  /\ sent (trace (snd (run open_cfg quiet_world (user_query "batman" (Some "abc"))))) = []
  /\ searched (trace (snd (run open_cfg quiet_world (user_query "batman" (Some "abc")))))
     = false.
Proof.
  split; [|split; [|split]].
  - apply (proj1 (offset_parsing open_cfg quiet_world (user_query "batman" None))).
    left. reflexivity.
  - apply (proj1 (proj2 (offset_parsing open_cfg quiet_world
                           (user_query "batman" (Some " 20 "))))
             " " 20 " "); reflexivity.
  - apply (proj1 (proj2 (proj2 (offset_parsing open_cfg quiet_world
                                  (user_query "batman" (Some arabic_12)))))
             arabic_12 12); [reflexivity | discriminate | reflexivity].
  - destruct (proj2 (proj2 (proj2 (offset_parsing open_cfg quiet_world
                                     (user_query "batman" (Some "abc")))))
                "abc" eq_refl) as [Hraise Hrun].
    + left. split; [discriminate | split; reflexivity].
    + split; [exact Hraise|]. apply Hrun; [reflexivity | discriminate].
Defined.

(** C2 as stated fails: on the token "abc" the offset is not 0, the handler
    ends with [ValueError] and no reply is sent. *)
Lemma offset_counterexample :
  parse_offset sample_python (Some "abc") <> Ok 0
  /\ run open_cfg quiet_world (user_query "batman" (Some "abc"))
     = (Raise ValueError, init).
Proof. split; [discriminate | reflexivity]. Qed.

(** ** Sending the reply *)

Section Sending.

Variable cfg : Config.
Variable w : World.

(** With results, a failed send does not leave lines 119-131: the expired
    query is dropped without a log entry, any other [Exception] is logged. *)
Lemma respond_found_swallows (d : InlineQueryResultCachedDocument)
    (ds : list InlineQueryResultCachedDocument) (no : offset_token) (total : Z)
    (term : string) (s : state) (e : exn) :
  let reply := found_reply cfg (d :: ds) no total term in
  send w reply = Raise e ->
  is_Exception e = true ->
  respond cfg w (d :: ds) no total term s
  = (Ok tt,
     extend s (CallAnswer reply
               :: if is_QueryIdInvalid e then [] else [LogException e])).
Proof.
  intros reply Hsend He. unfold respond. cbn [truthy_list].
  unfold try_except. rewrite query_answer_run. fold reply. rewrite Hsend.
  destruct e; try discriminate; simpl; try reflexivity;
    unfold emit, extend; simpl; now rewrite <- app_assoc.
Qed.

(** Without results, the send of lines 137-143 is not under [try]: whatever
    it raises leaves the handler. *)
Lemma respond_empty_propagates (no : offset_token) (total : Z)
    (term : string) (s : state) (e : exn) :
  send w (empty_reply cfg term) = Raise e ->
  respond cfg w [] no total term s
  = (Raise e, extend s [CallAnswer (empty_reply cfg term)]).
Proof.
  intros Hsend. unfold respond. cbn [truthy_list].
  now rewrite query_answer_run, Hsend.
Qed.

End Sending.

(** C8: the code at the failing input.  Nothing is found, the query has
    expired when the reply is sent: [QueryIdInvalid] leaves the handler.  With
    two files found the same failure is dropped and the handler returns. *)
Theorem expired_query_not_swallowed :
  fst (run open_cfg expired_world (user_query "zzz" None)) = Raise QueryIdInvalid
  /\ sent (trace (snd (run open_cfg expired_world (user_query "zzz" None))))
     = [empty_reply open_cfg "zzz"]
  /\ fst (run open_cfg expired_batman_world batman_query) = Ok tt.
Proof. repeat split. Qed.

(** ** The caption template *)

Section Template.

Variable u : Python.
Variable kw : kwargs.

Lemma append_char_assoc (out : string) (c : ascii) (s : string) :
  (out ++ String c "") ++ s = out ++ String c s.
Proof. now rewrite append_assoc. Qed.

(** Literal text without braces is copied. *)
Lemma render_literal (s rest out : string) :
  no_brace s = true ->
  render Text (s ++ rest) kw out = render Text rest kw (out ++ s).
Proof.
  revert out. induction s as [|c s IH]; intros out; simpl.
  - intros _. now rewrite append_nil_r.
  - rewrite !andb_true_iff, !negb_true_iff. intros ((Ho & Hc) & Hs).
    rewrite Ho, Hc, (IH _ Hs). now rewrite append_char_assoc.
Qed.

(** Inside a field, the characters of a plain name are collected up to the
    closing brace. *)
Lemma render_name (name rest acc out : string) :
  plain_chars name = true ->
  render (Field acc) (name ++ String "}" rest) kw out
  = match field_value (acc ++ name) kw with
    | Ok v => render Text rest kw (out ++ v)
    | Raise e => Raise e
    | Unmodelled => Unmodelled
    end.
Proof.
  revert acc. induction name as [|c name IH]; intros acc.
  - intros _. simpl. now rewrite append_nil_r.
  - cbn [plain_chars append render].
    rewrite !andb_true_iff, !negb_true_iff. intros ((Hc & He) & Hn).
    rewrite Hc, He, (IH _ Hn). now rewrite append_char_assoc.
Qed.

Lemma render_placeholder (name rest out : string) :
  plain_name name = true ->
  render Text ("{" ++ name ++ "}" ++ rest) kw out
  = match lookup name kw with
    | Some v => render Text rest kw (out ++ v)
    | None => Raise (KeyError name)
    end.
Proof.
  unfold plain_name. rewrite andb_true_iff, negb_true_iff. intros (Hd & Hp).
  destruct name as [|c name]; [discriminate|].
  assert (Hc : Ascii.eqb c "{" = false).
  { simpl in Hp. rewrite !andb_true_iff, !negb_true_iff in Hp.
    destruct Hp as ((_ & He) & _). unfold ends_plain_name in He.
    rewrite !orb_false_iff in He. tauto. }
  change (render Text ("{" ++ String c name ++ "}" ++ rest) kw out)
    with (if Ascii.eqb c "{" then render Text (name ++ "}" ++ rest) kw (out ++ "{")
          else render (Field "") (String c name ++ String "}" rest) kw out).
  rewrite Hc, (render_name _ _ _ _ Hp). simpl append.
  unfold field_value. rewrite Hd. now destruct (lookup (String c name) kw).
Qed.

(** On a template made of literal text and plain placeholders, [format] is
    named-field substitution. *)
Lemma render_pieces (ps : list piece) (out : string) :
  forallb plain_piece ps = true ->
  render Text (template_of ps) kw out
  = match substitute kw ps with
    | Ok t => Ok (out ++ t)
    | failure => failure
    end.
Proof.
  revert out. induction ps as [|[s|name] ps IH]; intros out;
    cbn [template_of forallb substitute plain_piece].
  - intros _. simpl. now rewrite append_nil_r.
  - rewrite andb_true_iff. intros (Hs & Hps).
    rewrite (render_literal _ _ _ Hs), (IH _ Hps).
    destruct (substitute kw ps); [now rewrite append_assoc | reflexivity..].
  - rewrite andb_true_iff. intros (Hn & Hps).
    rewrite (render_placeholder name (template_of ps) out Hn).
    destruct (lookup name kw) as [v|]; [|reflexivity].
    rewrite (IH _ Hps).
    destruct (substitute kw ps); [now rewrite append_assoc | reflexivity..].
Qed.

Lemma substitute_settled (ps : list piece) : substitute kw ps <> Unmodelled.
Proof.
  induction ps as [|[s|name] ps IH]; cbn [substitute]; [discriminate | |].
  - destruct (substitute kw ps); [discriminate | discriminate | exact IH].
  - destruct (lookup name kw); [|discriminate].
    destruct (substitute kw ps); [discriminate | discriminate | exact IH].
Qed.

Lemma py_format_pieces (ps : list piece) :
  forallb plain_piece ps = true ->
  py_format u (template_of ps) kw = substitute kw ps.
Proof.
  intros Hps. unfold py_format, format_plain. rewrite (render_pieces ps "" Hps).
  pose proof (substitute_settled ps) as H.
  destruct (substitute kw ps); [reflexivity | reflexivity | now destruct H].
Qed.

(** Whatever [format] raises is an [Exception]. *)
Lemma field_value_raises (name : string) (e : exn) :
  field_value name kw = Raise e -> is_Exception e = true.
Proof.
  unfold field_value. destruct (all_digits name).
  - destruct (String.length name <=? 18)%nat; [intros [= <-]; reflexivity | discriminate].
  - destruct (lookup name kw); [discriminate | intros [= <-]; reflexivity].
Qed.

Lemma render_raises (t : string) :
  forall (m : mode) (out : string) (e : exn),
    render m t kw out = Raise e -> is_Exception e = true.
Proof.
  induction t as [t IH] using (well_founded_induction
                                 (Wf_nat.well_founded_ltof _ String.length)).
  intros m out e. destruct t as [|c t]; simpl.
  - destruct m; [discriminate | intros [= <-]; reflexivity].
  - assert (IH1 : forall m out e, render m t kw out = Raise e -> is_Exception e = true).
    { apply IH. unfold Wf_nat.ltof. simpl. lia. }
    destruct m as [|name].
    + destruct (Ascii.eqb c "{").
      * destruct t as [|c' t'']; [apply IH1|].
        destruct (Ascii.eqb c' "{"); [|apply IH1].
        apply IH. unfold Wf_nat.ltof. simpl. lia.
      * destruct (Ascii.eqb c "}"); [|apply IH1].
        destruct t as [|c' t'']; [intros [= <-]; reflexivity|].
        destruct (Ascii.eqb c' "}"); [|intros [= <-]; reflexivity].
        apply IH. unfold Wf_nat.ltof. simpl. lia.
    + destruct (Ascii.eqb c "}").
      * destruct (field_value name kw) eqn:F; [apply IH1 | | discriminate].
        intros [= <-]. exact (field_value_raises _ _ F).
      * destruct (ends_plain_name c); [discriminate | apply IH1].
Qed.

Lemma py_format_raises (template : string) (e : exn) :
  py_format u template kw = Raise e -> is_Exception e = true.
Proof.
  unfold py_format, format_plain.
  destruct (render Text template kw "") as [out|e'|] eqn:R.
  - discriminate.
  - intros [= <-]. exact (render_raises _ _ _ _ R).
  - apply str_format_raises.
Qed.

End Template.

Section Caption.

Variable cfg : Config.
Variable w : World.

Lemma template_step_formats (template : string) (title size f_caption : option string)
    (out : string) (s : state) :
  CUSTOM_FILE_CAPTION cfg = Some template ->
  truthy template = true ->
  py_format (python w) template
    [ ("file_name", or_empty title); ("file_size", or_empty size);
      ("file_caption", or_empty f_caption) ] = Ok out ->
  template_step cfg w title size f_caption s = (Ok (Some out), s).
Proof.
  intros Hc Ht Hf. unfold template_step. rewrite Hc, Ht.
  unfold try_except, bind, lift. now rewrite Hf.
Qed.

Lemma template_step_falls_back (template : string) (title size f_caption : option string)
    (e : exn) (s : state) :
  CUSTOM_FILE_CAPTION cfg = Some template ->
  truthy template = true ->
  py_format (python w) template
    [ ("file_name", or_empty title); ("file_size", or_empty size);
      ("file_caption", or_empty f_caption) ] = Raise e ->
  template_step cfg w title size f_caption s
  = (Ok f_caption, extend s [LogException e]).
Proof.
  intros Hc Ht Hf. unfold template_step. rewrite Hc, Ht.
  unfold try_except, bind, lift. rewrite Hf.
  now rewrite (py_format_raises _ _ _ _ Hf).
Qed.

Lemma display_run (rm : markup_ref) (file : Media.t) (size c : option string)
    (s s' : state) :
  get_size w (Media.file_size file) = Ok size ->
  template_step cfg w (Media.file_name file) size (Media.caption file) s = (Ok c, s') ->
  display cfg w rm file s = (Ok (document rm file size (default_caption file c)), s').
Proof.
  intros Hsize Hstep. unfold display, bind, lift. now rewrite Hsize, Hstep.
Qed.

End Caption.

Lemma display_without_template (cfg : Config) (w : World) (rm : markup_ref)
    (file : Media.t) (size : option string) (s : state) :
  CUSTOM_FILE_CAPTION cfg = None ->
  get_size w (Media.file_size file) = Ok size ->
  display cfg w rm file s
  = (Ok (document rm file size (default_caption file (Media.caption file))), s).
Proof.
  intros Hc Hsize. apply display_run; [exact Hsize|].
  unfold template_step. now rewrite Hc.
Qed.

(** C6, as the code has it.  With a caption template configured, the caption
    of a file is the template with the file name, the size string and the
    original caption substituted for their placeholders.  When formatting
    fails, as it does on a placeholder that is not one of the three, the
    failure is logged and the caption step falls back to the original caption:
    the caption of the result is the original caption when the file has one,
    and the file name when it has none, as with no template configured. *)
Theorem caption_template (cfg : Config) (w : World) (file : Media.t)
    (template : string) (size : option string) (rm : markup_ref) (s : state) :
  CUSTOM_FILE_CAPTION cfg = Some template ->
  truthy template = true ->
  get_size w (Media.file_size file) = Ok size ->
  let kw := [ ("file_name", or_empty (Media.file_name file));
              ("file_size", or_empty size);
              ("file_caption", or_empty (Media.caption file)) ] in
  (forall ps out,
      forallb plain_piece ps = true -> template = template_of ps ->
      substitute kw ps = Ok out ->
      display cfg w rm file s = (Ok (document rm file size out), s))
  /\ (forall ps name,
        forallb plain_piece ps = true -> template = template_of ps ->
        substitute kw ps = Raise (KeyError name) ->
        py_format (python w) template kw = Raise (KeyError name))
  /\ (forall e,
        py_format (python w) template kw = Raise e ->
        template_step cfg w (Media.file_name file) size (Media.caption file) s
        = (Ok (Media.caption file), extend s [LogException e])
        /\ display cfg w rm file s
           = (Ok (document rm file size (default_caption file (Media.caption file))),
              extend s [LogException e])
        /\ caption (document rm file size (default_caption file (Media.caption file)))
           = match Media.caption file with
             | Some c => c
             | None => of_opt (Media.file_name file)
             end
        /\ forall cfg',
             CUSTOM_FILE_CAPTION cfg' = None ->
             fst (display cfg' w rm file s) = fst (display cfg w rm file s)).
Proof.
  intros Hc Ht Hsize kw. split; [|split].
  - intros ps out Hps -> Hsub.
    apply (display_run cfg w rm file size (Some out) s s Hsize).
    apply (template_step_formats cfg w _ _ _ _ _ _ Hc Ht).
    fold kw. now rewrite (py_format_pieces (python w) kw ps Hps).
  - intros ps name Hps -> Hsub. now rewrite (py_format_pieces (python w) kw ps Hps).
  - intros e Hf.
    pose proof (template_step_falls_back cfg w _ _ _ _ _ s Hc Ht Hf) as Hstep.
    split; [exact Hstep|].
    pose proof (display_run cfg w rm file size _ s _ Hsize Hstep) as Hd.
    split; [exact Hd|]. split; [now destruct (Media.caption file)|].
    intros cfg' Hc'. now rewrite Hd, (display_without_template cfg' w rm file size s Hc' Hsize).
Qed.

Lemma caption_template_witness :
  display (caption_cfg "{file_name} - {file_size}") batman_world 0%nat batman_1 init
  = (Ok (document 0%nat batman_1 (Some "10 MB") "a.mp4 - 10 MB"), init)
  /\ py_format sample_python "{title}"
       [ ("file_name", "Batman Begins.mkv"); ("file_size", "10 MB");
         ("file_caption", "Batman Begins (2005)") ]
     = Raise (KeyError "title")
  /\ display (caption_cfg "{title}") batman_world 0%nat batman_2 init
     = (Ok (document 0%nat batman_2 (Some "10 MB") "Batman Begins (2005)"),
        extend init [LogException (KeyError "title")]).
Proof.
  split; [|split].
  - apply (proj1 (caption_template (caption_cfg "{file_name} - {file_size}")
                    batman_world batman_1 "{file_name} - {file_size}" (Some "10 MB")
                    0%nat init eq_refl eq_refl eq_refl)
             [Placeholder "file_name"; Lit " - "; Placeholder "file_size"]);
      reflexivity.
  - apply (proj1 (proj2 (caption_template (caption_cfg "{title}") batman_world
                           batman_2 "{title}" (Some "10 MB") 0%nat init
                           eq_refl eq_refl eq_refl))
             [Placeholder "title"] "title");
      reflexivity.
  - apply (proj2 (proj2 (caption_template (caption_cfg "{title}") batman_world
                           batman_2 "{title}" (Some "10 MB") 0%nat init
                           eq_refl eq_refl eq_refl))
             (KeyError "title")).
    reflexivity.
Defined.

(** C6 as stated fails: the template has a placeholder that is not one of
    the three and the file has no caption.  Formatting fails, and the caption
    of the result is not an original caption left unchanged, there is none:
    it is the file name. *)
Lemma caption_counterexample :
  Media.caption batman_1 = None
  /\ exists d,
       display (caption_cfg "{title}") batman_world 0%nat batman_1 init
       = (Ok d, extend init [LogException (KeyError "title")])
       /\ caption d = "a.mp4"
       /\ Some (caption d) <> Media.caption batman_1.
Proof.
  split; [reflexivity|]. eexists. split; [reflexivity|].
  split; [reflexivity | discriminate].
Qed.

(** ** The offset token round trip *)


(** X1.  The continuation token survives the round trip through the client:
    the handler sends [str(next_offset)] and reads the token back with
    [int].  An integer token, negative ones included, comes back as the same
    integer; the empty string, which ends the pages, comes back as 0. *)
Theorem offset_round_trip (u : Python) (n : Z) :
  parse_offset u (Some (str_token (TokInt n))) = Ok n
  /\ parse_offset u (Some (str_token (TokStr ""))) = Ok 0.
Proof.
  split; [|reflexivity]. unfold str_token.
  apply parse_offset_reads; [apply of_Z_nonempty|].
  unfold py_int. rewrite is_ascii_of_Z. apply int_ascii_of_Z.
Qed.

(** ** The shape of a run *)

Section Shape.

Variable cfg : Config.
Variable w : World.

Lemma logs_no_search (t u : list event) :
  forallb is_log t = true -> filter is_search (t ++ u) = filter is_search u.
Proof.
  induction t as [|ev t IH]; simpl; [reflexivity|].
  destruct ev; simpl; try discriminate. exact IH.
Qed.

Lemma logs_no_subscription_check (t u : list event) :
  forallb is_log t = true ->
  checked_subscription (t ++ u) = checked_subscription u.
Proof.
  induction t as [|ev t IH]; simpl; [reflexivity|].
  destruct ev; simpl; try discriminate. exact IH.
Qed.

Lemma logs_not_sent (t u : list event) :
  forallb is_log t = true -> sent (t ++ u) = sent u.
Proof. intros Ht. now rewrite sent_app, (sent_logs t Ht). Qed.

(** What [respond] does, in full. *)
Lemma respond_run (ds : list InlineQueryResultCachedDocument)
    (no : offset_token) (total : Z) (term : string) (s : state) :
  let r := if truthy_list ds then found_reply cfg ds no total term
           else empty_reply cfg term in
  respond cfg w ds no total term s
  = (if truthy_list ds then
       match send w r with
       | Raise e => if is_Exception e then Ok tt else Raise e
       | other => other
       end
     else send w r,
     extend s (CallAnswer r
               :: if truthy_list ds then
                    match send w r with
                    | Raise e =>
                        if is_QueryIdInvalid e then []
                        else if is_Exception e then [LogException e] else []
                    | _ => []
                    end
                  else [])).
Proof.
  unfold respond. destruct ds as [|d ds]; cbn [truthy_list]; cbv zeta.
  - apply query_answer_run.
  - unfold try_except. rewrite query_answer_run.
    destruct (send w (found_reply cfg (d :: ds) no total term)) as [[]|e|];
      [reflexivity | | reflexivity].
    destruct e; simpl; try reflexivity;
      unfold emit, extend; simpl; now rewrite <- app_assoc.
Qed.

(** The state in which lines 65-143 start, once both gates are passed. *)
Lemma run_passes (q : InlineQuery) :
  inline_users cfg q = true ->
  (truthy_opt_int (AUTH_CHANNEL cfg) = true -> is_subscribed w q = Ok true) ->
  run cfg w q
  = search_and_respond cfg w q
      {| trace := if truthy_opt_int (AUTH_CHANNEL cfg) then [CallIsSubscribed] else [];
         heap := [] |}.
Proof.
  intros Ha Hsub. destruct (truthy_opt_int (AUTH_CHANNEL cfg)) eqn:Hc.
  - apply run_subscribed; auto.
  - now apply run_admitted.
Qed.

(** The run when the gates, the parser, the search and the loop succeed. *)
Lemma success_path (q : InlineQuery) (term : string) (ft : option string)
    (off : Z) (files : list Media.t) (no : offset_token) (total : Z)
    (ds : list InlineQueryResultCachedDocument) (s1 : state) :
  inline_users cfg q = true ->
  (truthy_opt_int (AUTH_CHANNEL cfg) = true -> is_subscribed w q = Ok true) ->
  parse_query (python w) (query q) = Ok (term, ft) ->
  parse_offset (python w) (offset q) = Ok off ->
  get_search_results w term ft 10 off = Ok (files, no, total) ->
  display_all cfg w 0%nat files init = (Ok ds, s1) ->
  forallb is_log (trace s1) = true
  /\ run cfg w q
     = respond cfg w ds no total term
         {| trace := ((if truthy_opt_int (AUTH_CHANNEL cfg) then [CallIsSubscribed] else [])
                      ++ [CallSearch term ft 10 off]) ++ trace s1;
            heap := [ {| inline_keyboard := buttons term |} ] |}.
Proof.
  intros Ha Hsub Hp Ho Hs Hd.
  destruct (logs_only_display_all cfg w 0%nat files) as (rd & tl & Htl & Hall).
  rewrite Hall in Hd. injection Hd as -> <-. simpl trace.
  split; [exact Htl|].
  rewrite (run_passes q Ha Hsub).
  rewrite (search_and_respond_run cfg w q term ft off files no total _ Hp Ho Hs).
  simpl heap. simpl List.length. unfold bind. rewrite Hall. reflexivity.
Qed.

(** The calls of lines 65-143, whatever happens there: none, or the search
    followed by log entries and at most one reply, itself followed by log
    entries. *)
Lemma search_and_respond_shape (q : InlineQuery) (s : state) :
  heap s = [] ->
  snd (search_and_respond cfg w q s) = s
  \/ exists term ft off logs rest,
       snd (search_and_respond cfg w q s)
       = {| trace := trace s ++ CallSearch term ft 10 off :: logs ++ rest;
            heap := [ {| inline_keyboard := buttons term |} ] |}
       /\ parse_query (python w) (query q) = Ok (term, ft)
       /\ forallb is_log logs = true
       /\ (rest = []
           \/ exists r tl,
               rest = CallAnswer r :: tl /\ forallb is_log tl = true
               /\ Reply.cache_time r = 0 /\ Reply.is_personal r = Some true).
Proof.
  intros Hh. destruct (parse_query_total (python w) (query q)) as (term & ft & Hp).
  destruct (parse_offset (python w) (offset q)) as [off|e|] eqn:Ho.
  2,3: left; apply (search_and_respond_stops cfg w q term ft s Hp);
       intros off; rewrite Ho; discriminate.
  right. exists term, ft, off.
  destruct (get_search_results w term ft 10 off) as [[[files no] total]|e|] eqn:Hs.
  2,3: exists [], []; split; [|now auto];
       rewrite (search_and_respond_search_fails cfg w q term ft off s Hp Ho);
       [now rewrite Hh | rewrite Hs; discriminate].
  rewrite (search_and_respond_run cfg w q term ft off files no total s Hp Ho Hs).
  rewrite Hh. simpl List.length. simpl app.
  destruct (logs_only_display_all cfg w 0%nat files) as (rd & tl & Htl & Hd).
  exists tl. unfold bind. rewrite Hd.
  destruct rd as [ds|e|].
  - rewrite respond_run. cbv zeta.
    eexists (CallAnswer _ :: _). split; [|split; [exact Hp|split; [exact Htl|]]].
    + unfold extend. simpl. rewrite <- !app_assoc. reflexivity.
    + right. eexists _, _. split; [reflexivity|]. split.
      * destruct (truthy_list ds); [|reflexivity].
        destruct (send w _) as [[]|e|]; try reflexivity. now destruct e.
      * destruct ds; split; reflexivity.
  - exists []. split; [|now auto]. unfold extend. simpl.
    now rewrite <- !app_assoc, app_nil_r.
  - exists []. split; [|now auto]. unfold extend. simpl.
    now rewrite <- !app_assoc, app_nil_r.
Qed.

(** The calls of a run, whatever the query and the collaborators do. *)
Lemma run_shape (q : InlineQuery) :
  exists pre body h,
    snd (run cfg w q) = {| trace := pre ++ body; heap := h |}
    /\ (pre = [] \/ pre = [CallIsSubscribed] /\ truthy_opt_int (AUTH_CHANNEL cfg) = true)
    /\ ((body = [] /\ h = [])
        \/ (exists r, body = [CallAnswer r] /\ h = []
                      /\ Reply.results r = [] /\ Reply.cache_time r = 0)
        \/ (exists term ft off logs rest,
               body = CallSearch term ft 10 off :: logs ++ rest
               /\ h = [ {| inline_keyboard := buttons term |} ]
               /\ forallb is_log logs = true
               /\ (rest = []
                   \/ exists r tl,
                       rest = CallAnswer r :: tl /\ forallb is_log tl = true
                       /\ Reply.cache_time r = 0
                       /\ Reply.is_personal r = Some true))).
Proof.
  destruct (inline_users cfg q) eqn:Ha.
  2:{ rewrite (run_denied cfg w q Ha). exists [], [CallAnswer access_denied], [].
      split; [reflexivity|]. split; [now left|]. right. left.
      exists access_denied. repeat split. }
  assert (Hpath : forall pre,
             (pre = [] \/ pre = [CallIsSubscribed]
                          /\ truthy_opt_int (AUTH_CHANNEL cfg) = true) ->
             run cfg w q = search_and_respond cfg w q {| trace := pre; heap := [] |} ->
             exists pre body h,
               snd (run cfg w q) = {| trace := pre ++ body; heap := h |}
               /\ (pre = [] \/ pre = [CallIsSubscribed]
                               /\ truthy_opt_int (AUTH_CHANNEL cfg) = true)
               /\ ((body = [] /\ h = [])
                   \/ (exists r, body = [CallAnswer r] /\ h = []
                                 /\ Reply.results r = [] /\ Reply.cache_time r = 0)
                   \/ (exists term ft off logs rest,
                          body = CallSearch term ft 10 off :: logs ++ rest
                          /\ h = [ {| inline_keyboard := buttons term |} ]
                          /\ forallb is_log logs = true
                          /\ (rest = []
                              \/ exists r tl,
                                  rest = CallAnswer r :: tl /\ forallb is_log tl = true
                                  /\ Reply.cache_time r = 0
                                  /\ Reply.is_personal r = Some true)))).
  { intros pre Hpre Hrun. rewrite Hrun.
    destruct (search_and_respond_shape q {| trace := pre; heap := [] |} eq_refl)
      as [-> | (term & ft & off & logs & rest & -> & _ & Hlogs & Hrest)].
    - exists pre, [], []. rewrite app_nil_r. split; [reflexivity|].
      split; [exact Hpre | now left].
    - exists pre, (CallSearch term ft 10 off :: logs ++ rest),
        [ {| inline_keyboard := buttons term |} ].
      split; [reflexivity|]. split; [exact Hpre|]. right. right.
      exists term, ft, off, logs, rest. auto. }
  destruct (truthy_opt_int (AUTH_CHANNEL cfg)) eqn:Hc.
  2:{ apply (Hpath []); [now left | now apply run_admitted]. }
  destruct (is_subscribed w q) as [[|]|e|] eqn:Hs.
  - apply (Hpath [CallIsSubscribed]); [now right | now apply run_subscribed].
  - rewrite (run_unsubscribed cfg w q Ha Hc Hs).
    exists [CallIsSubscribed], [CallAnswer not_subscribed], [].
    split; [reflexivity|]. split; [now right|]. right. left.
    exists not_subscribed. repeat split.
  - exists [CallIsSubscribed], [], []. split; [|split; [now right | now left]].
    unfold run, answer. rewrite Ha, Hc. simpl. unfold bind, emit, lift. simpl.
    now rewrite Hs.
  - exists [CallIsSubscribed], [], []. split; [|split; [now right | now left]].
    unfold run, answer. rewrite Ha, Hc. simpl. unfold bind, emit, lift. simpl.
    now rewrite Hs.
Qed.

End Shape.

(** ** What every run does *)

Lemma logs_filtered (f : event -> bool) (t u : list event) :
  (forall e, f (LogException e) = false) ->
  forallb is_log t = true -> filter f (t ++ u) = filter f u.
Proof.
  intros Hf. induction t as [|ev t IH]; simpl; [reflexivity|].
  destruct ev; simpl; try discriminate. now rewrite Hf.
Qed.

(** X2.  Whatever the query and the collaborators do, one run of the handler
    calls [query.answer] at most once, the search at most once and the
    subscription check at most once, and builds at most one keyboard. *)
Theorem at_most_one_of_each (cfg : Config) (w : World) (q : InlineQuery) :
  (List.length (sent (trace (snd (run cfg w q)))) <= 1)%nat
  /\ (List.length (filter is_search (trace (snd (run cfg w q)))) <= 1)%nat
  /\ (List.length (filter is_subscription_check (trace (snd (run cfg w q)))) <= 1)%nat
  /\ (List.length (heap (snd (run cfg w q))) <= 1)%nat.
Proof.
  destruct (run_shape cfg w q) as (pre & body & h & -> & Hpre & Hbody).
  cbn [trace heap]. rewrite sent_app, !filter_app, !length_app.
  assert (Hp : sent pre = [] /\ filter is_search pre = []
               /\ (List.length (filter is_subscription_check pre) <= 1)%nat).
  { destruct Hpre as [-> | (-> & _)]; simpl; repeat split; lia. }
  destruct Hp as (-> & -> & Hp3). cbn [List.length].
  destruct Hbody as [(-> & ->) | [(r & -> & -> & _) | Hsearch]].
  - simpl. lia.
  - simpl. lia.
  - destruct Hsearch as (term & ft & off & logs & rest & -> & -> & Hlogs & Hrest).
    cbn [sent filter is_search is_subscription_check List.length].
    rewrite (logs_not_sent logs rest Hlogs).
    rewrite !(logs_filtered _ logs rest) by (auto; reflexivity).
    destruct Hrest as [-> | (r & tl & -> & Htl & _)].
    + simpl. lia.
    + cbn [sent filter is_search is_subscription_check List.length].
      rewrite (sent_logs tl Htl).
      rewrite <- (app_nil_r tl), !(logs_filtered _ tl []) by (auto; reflexivity).
      simpl. lia.
Qed.

(** X3.  Every reply the handler sends, on every path, has cache time 0,
    whatever [CACHE_TIME], [AUTH_USERS] and [AUTH_CHANNEL] are:
    [FORCE_FRESH_CACHE] is on. *)
Theorem every_reply_fresh (cfg : Config) (w : World) (q : InlineQuery)
    (r : Reply.t) :
  In r (sent (trace (snd (run cfg w q)))) -> Reply.cache_time r = 0.
Proof.
  destruct (run_shape cfg w q) as (pre & body & h & -> & Hpre & Hbody).
  cbn [trace]. rewrite sent_app.
  assert (Hp : sent pre = []) by (destruct Hpre as [-> | (-> & _)]; reflexivity).
  rewrite Hp. cbn [app].
  destruct Hbody as [(-> & _) | [(r0 & -> & _ & _ & Hc) | Hsearch]].
  - intros [].
  - intros [<- | []]. exact Hc.
  - destruct Hsearch as (term & ft & off & logs & rest & -> & _ & Hlogs & Hrest).
    cbn [sent]. rewrite (logs_not_sent logs rest Hlogs).
    destruct Hrest as [-> | (r0 & tl & -> & Htl & Hc & _)]; [intros []|].
    cbn [sent]. rewrite (sent_logs tl Htl). intros [<- | []]. exact Hc.
Qed.

Lemma every_reply_fresh_witness : Reply.cache_time batman_reply = 0.
Proof.
  apply (every_reply_fresh open_cfg batman_world batman_query batman_reply).
  vm_compute. left. reflexivity.
Defined.

(** X4.  [is_subscribed] is called exactly when the access gate admits the user
    and [AUTH_CHANNEL] is true: a channel that is [None] or 0 switches the
    subscription gate off. *)
Theorem subscription_check_condition (cfg : Config) (w : World) (q : InlineQuery) :
  checked_subscription (trace (snd (run cfg w q))) = true
  <-> inline_users cfg q = true /\ truthy_opt_int (AUTH_CHANNEL cfg) = true.
Proof.
  destruct (inline_users cfg q) eqn:Ha.
  2:{ rewrite (run_denied cfg w q Ha). simpl. split; [discriminate | now intros []]. }
  destruct (truthy_opt_int (AUTH_CHANNEL cfg)) eqn:Hc.
  - split; [auto|]. intros _.
    destruct (is_subscribed w q) as [[|]|e|] eqn:Hs.
    + rewrite (run_subscribed cfg w q Ha Hc Hs).
      destruct (search_and_respond_shape cfg w q
                  {| trace := [CallIsSubscribed]; heap := [] |} eq_refl)
        as [-> | (term & ft & off & logs & rest & -> & _)]; reflexivity.
    + now rewrite (run_unsubscribed cfg w q Ha Hc Hs).
    + unfold run, answer. rewrite Ha, Hc. simpl. unfold bind, emit, lift. simpl.
      now rewrite Hs.
    + unfold run, answer. rewrite Ha, Hc. simpl. unfold bind, emit, lift. simpl.
      now rewrite Hs.
  - split; [|now intros []]. rewrite (run_admitted cfg w q Ha Hc).
    destruct (search_and_respond_shape cfg w q init eq_refl)
      as [-> | (term & ft & off & logs & rest & -> & _ & Hlogs & Hrest)];
      [discriminate|].
    cbn [trace init app checked_subscription existsb is_subscription_check orb].
    fold (checked_subscription (logs ++ rest)).
    rewrite (logs_no_subscription_check logs rest Hlogs).
    destruct Hrest as [-> | (r & tl & -> & Htl & _)]; [discriminate|].
    cbn [checked_subscription existsb is_subscription_check orb].
    fold (checked_subscription tl).
    rewrite <- (app_nil_r tl), (logs_no_subscription_check tl [] Htl). discriminate.
Qed.

Lemma subscription_check_condition_witness :
  checked_subscription
    (trace (snd (run channel_cfg unsubscribed_world (user_query "batman" None))))
  = true.
Proof.
  apply (subscription_check_condition channel_cfg unsubscribed_world
           (user_query "batman" None)).
  split; reflexivity.
Defined.

(** ** Failures of the collaborators *)

(** X5.  A failure of the subscription check is not caught: the handler ends
    with the exception, having neither searched nor replied. *)
Theorem subscription_check_failure_propagates (cfg : Config) (w : World)
    (q : InlineQuery) (e : exn) :
  inline_users cfg q = true ->
  truthy_opt_int (AUTH_CHANNEL cfg) = true ->
  is_subscribed w q = Raise e ->
  run cfg w q = (Raise e, {| trace := [CallIsSubscribed]; heap := [] |}).
Proof.
  intros Ha Hc Hs. unfold run, answer. rewrite Ha, Hc. simpl.
  unfold bind, emit, lift. simpl. now rewrite Hs.
Qed.

Lemma subscription_check_failure_propagates_witness :
  run channel_cfg failing_check_world (user_query "batman" None)
  = (Raise (OtherException "chat not found"),
     {| trace := [CallIsSubscribed]; heap := [] |}).
Proof.
  apply (subscription_check_failure_propagates channel_cfg failing_check_world
           (user_query "batman" None));
    reflexivity.
Defined.

Lemma search_and_respond_search_raises (cfg : Config) (w : World)
    (q : InlineQuery) (term : string) (ft : option string) (off : Z) (e : exn)
    (s : state) :
  parse_query (python w) (query q) = Ok (term, ft) ->
  parse_offset (python w) (offset q) = Ok off ->
  get_search_results w term ft 10 off = Raise e ->
  search_and_respond cfg w q s
  = (Raise e,
     {| trace := trace s ++ [CallSearch term ft 10 off];
        heap := heap s ++ [ {| inline_keyboard := buttons term |} ] |}).
Proof.
  intros Hp Ho Hs. unfold search_and_respond.
  unfold bind at 1. unfold lift at 1. rewrite Hp.
  unfold bind at 1. unfold lift at 1. rewrite Ho.
  unfold bind at 1. unfold get_reply_markup, new_markup.
  unfold bind at 1. unfold emit at 1.
  unfold bind at 1. unfold lift at 1. now rewrite Hs.
Qed.

(** X6.  A failure of the search is not caught: the handler ends with the
    exception right after the call, and no reply is sent. *)
Theorem search_failure_propagates (cfg : Config) (w : World) (q : InlineQuery)
    (term : string) (ft : option string) (off : Z) (e : exn) :
  inline_users cfg q = true ->
  (truthy_opt_int (AUTH_CHANNEL cfg) = true -> is_subscribed w q = Ok true) ->
  parse_query (python w) (query q) = Ok (term, ft) ->
  parse_offset (python w) (offset q) = Ok off ->
  get_search_results w term ft 10 off = Raise e ->
  fst (run cfg w q) = Raise e
  /\ sent (trace (snd (run cfg w q))) = []
  /\ filter is_search (trace (snd (run cfg w q))) = [CallSearch term ft 10 off].
Proof.
  intros Ha Hsub Hp Ho Hs. rewrite (run_passes cfg w q Ha Hsub).
  rewrite (search_and_respond_search_raises cfg w q term ft off e _ Hp Ho Hs).
  destruct (truthy_opt_int (AUTH_CHANNEL cfg)); simpl; repeat split.
Qed.

Lemma search_failure_propagates_witness :
  fst (run open_cfg failing_search_world batman_query)
  = Raise (OtherException "database unreachable")
  /\ sent (trace (snd (run open_cfg failing_search_world batman_query))) = []
  /\ filter is_search (trace (snd (run open_cfg failing_search_world batman_query)))
     = [CallSearch "batman" (Some "mkv") 10 0].
Proof.
  apply (search_failure_propagates open_cfg failing_search_world batman_query
           "batman" (Some "mkv") 0);
    first [reflexivity | discriminate].
Defined.

(** ** The reply after a search *)

(** X7.  The calls of a run that gets through, in order: the subscription
    check when a channel is configured, the search with at most 10 results
    asked for, the log entries of the loop, one reply, the log entry of a
    failed send.  The reply passes the continuation token of the search on as
    [str(next_offset)] when there are results and carries no token when there
    are none. *)
Theorem calls_in_order (cfg : Config) (w : World) (q : InlineQuery)
    (term : string) (ft : option string) (off : Z) (files : list Media.t)
    (no : offset_token) (total : Z) (ds : list InlineQueryResultCachedDocument)
    (s1 : state) :
  inline_users cfg q = true ->
  (truthy_opt_int (AUTH_CHANNEL cfg) = true -> is_subscribed w q = Ok true) ->
  parse_query (python w) (query q) = Ok (term, ft) ->
  parse_offset (python w) (offset q) = Ok off ->
  get_search_results w term ft 10 off = Ok (files, no, total) ->
  display_all cfg w 0%nat files init = (Ok ds, s1) ->
  exists r tail,
    trace (snd (run cfg w q))
    = ((if truthy_opt_int (AUTH_CHANNEL cfg) then [CallIsSubscribed] else [])
       ++ CallSearch term ft 10 off :: trace s1 ++ CallAnswer r :: tail)%list
    /\ forallb is_log (trace s1) = true
    /\ forallb is_log tail = true
    /\ Reply.results r = ds
    /\ Reply.is_personal r = Some true
    /\ Reply.next_offset r = (if truthy_list files then Some (str_token no) else None)
    /\ Reply.switch_pm_parameter r = (if truthy_list files then "start" else "okay").
Proof.
  intros Ha Hsub Hp Ho Hs Hd.
  destruct (success_path cfg w q term ft off files no total ds s1 Ha Hsub Hp Ho Hs Hd)
    as (Hlogs & ->).
  destruct (display_all_Ok cfg w 0%nat files _ _ _ Hd) as (Hlen & _).
  assert (Htl : truthy_list ds = truthy_list files)
    by (destruct ds, files; try discriminate; reflexivity).
  rewrite respond_run. cbv zeta. cbn [snd extend trace].
  eexists _, _. split; [rewrite <- !app_assoc; reflexivity|].
  split; [exact Hlogs|]. rewrite <- Htl. split.
  - destruct (truthy_list ds); [|reflexivity].
    destruct (send w _) as [[]|e|]; try reflexivity. now destruct e.
  - destruct ds; repeat split.
Qed.

Lemma calls_in_order_witness :
  exists r tail,
    trace (snd (run open_cfg batman_world batman_query))
    = ((if truthy_opt_int (AUTH_CHANNEL open_cfg) then [CallIsSubscribed] else [])
       ++ CallSearch "batman" (Some "mkv") 10 0 :: trace init ++ CallAnswer r :: tail)%list
    /\ forallb is_log (trace init) = true
    /\ forallb is_log tail = true
    /\ Reply.results r = batman_results
    /\ Reply.is_personal r = Some true
    /\ Reply.next_offset r
       = (if truthy_list [batman_1; batman_2] then Some (str_token (TokInt 10)) else None)
    /\ Reply.switch_pm_parameter r
       = (if truthy_list [batman_1; batman_2] then "start" else "okay").
Proof.
  apply (calls_in_order open_cfg batman_world batman_query "batman" (Some "mkv") 0
           [batman_1; batman_2] (TokInt 10) 57 batman_results init);
    first [reflexivity | discriminate].
Defined.

(** X8.  With results to send, a failure of [query.answer] does not leave the
    handler when it is an [Exception]: the handler returns, an expired query
    leaves no log entry, any other [Exception] is logged once.  A
    [BaseException] that is not an [Exception] goes through, unlogged. *)
Theorem found_send_failure_contained (cfg : Config) (w : World) (q : InlineQuery)
    (term : string) (ft : option string) (off : Z) (files : list Media.t)
    (no : offset_token) (total : Z) (ds : list InlineQueryResultCachedDocument)
    (s1 : state) (e : exn) :
  inline_users cfg q = true ->
  (truthy_opt_int (AUTH_CHANNEL cfg) = true -> is_subscribed w q = Ok true) ->
  parse_query (python w) (query q) = Ok (term, ft) ->
  parse_offset (python w) (offset q) = Ok off ->
  get_search_results w term ft 10 off = Ok (files, no, total) ->
  display_all cfg w 0%nat files init = (Ok ds, s1) ->
  ds <> [] ->
  send w (found_reply cfg ds no total term) = Raise e ->
  fst (run cfg w q) = (if is_Exception e then Ok tt else Raise e)
  /\ trace (snd (run cfg w q))
     = ((if truthy_opt_int (AUTH_CHANNEL cfg) then [CallIsSubscribed] else [])
        ++ CallSearch term ft 10 off :: trace s1
        ++ CallAnswer (found_reply cfg ds no total term)
        :: (if is_QueryIdInvalid e then []
            else if is_Exception e then [LogException e] else []))%list.
Proof.
  intros Ha Hsub Hp Ho Hs Hd Hne Hsend.
  destruct (success_path cfg w q term ft off files no total ds s1 Ha Hsub Hp Ho Hs Hd)
    as (_ & ->).
  rewrite respond_run. cbv zeta.
  apply truthy_list_nonempty in Hne. rewrite Hne, Hsend.
  cbn [fst snd extend trace]. split; [reflexivity|].
  now rewrite <- !app_assoc.
Qed.

Lemma found_send_failure_contained_witness :
  fst (run open_cfg flooded_world batman_query)
  = (if is_Exception (OtherException "FLOOD_WAIT") then Ok tt
     else Raise (OtherException "FLOOD_WAIT"))
  /\ trace (snd (run open_cfg flooded_world batman_query))
     = ((if truthy_opt_int (AUTH_CHANNEL open_cfg) then [CallIsSubscribed] else [])
        ++ CallSearch "batman" (Some "mkv") 10 0 :: trace init
        ++ CallAnswer (found_reply open_cfg batman_results (TokInt 10) 57 "batman")
        :: (if is_QueryIdInvalid (OtherException "FLOOD_WAIT") then []
            else if is_Exception (OtherException "FLOOD_WAIT")
                 then [LogException (OtherException "FLOOD_WAIT")] else []))%list.
Proof.
  apply (found_send_failure_contained open_cfg flooded_world batman_query
           "batman" (Some "mkv") 0 [batman_1; batman_2] (TokInt 10) 57
           batman_results init (OtherException "FLOOD_WAIT"));
    first [reflexivity | discriminate].
Defined.

(** X9.  Without results, the outcome of the handler is the outcome of
    [query.answer]: whatever the send raises, the expired query included,
    leaves the handler, and nothing is logged. *)
Theorem empty_reply_send_unguarded (cfg : Config) (w : World) (q : InlineQuery)
    (term : string) (ft : option string) (off : Z) (no : offset_token) (total : Z) :
  inline_users cfg q = true ->
  (truthy_opt_int (AUTH_CHANNEL cfg) = true -> is_subscribed w q = Ok true) ->
  parse_query (python w) (query q) = Ok (term, ft) ->
  parse_offset (python w) (offset q) = Ok off ->
  get_search_results w term ft 10 off = Ok ([], no, total) ->
  run cfg w q
  = (send w (empty_reply cfg term),
     {| trace := ((if truthy_opt_int (AUTH_CHANNEL cfg) then [CallIsSubscribed] else [])
                  ++ [CallSearch term ft 10 off; CallAnswer (empty_reply cfg term)])%list;
        heap := [ {| inline_keyboard := buttons term |} ] |}).
Proof.
  intros Ha Hsub Hp Ho Hs.
  destruct (success_path cfg w q term ft off [] no total [] init Ha Hsub Hp Ho Hs eq_refl)
    as (_ & ->).
  rewrite respond_run. cbv zeta. cbn [truthy_list]. unfold extend. cbn [trace heap init].
  now rewrite app_nil_r, <- app_assoc.
Qed.

Lemma empty_reply_send_unguarded_witness :
  run open_cfg expired_world (user_query "zzz" None)
  = (send expired_world (empty_reply open_cfg "zzz"),
     {| trace := ((if truthy_opt_int (AUTH_CHANNEL open_cfg) then [CallIsSubscribed] else [])
                  ++ [CallSearch "zzz" None 10 0; CallAnswer (empty_reply open_cfg "zzz")])%list;
        heap := [ {| inline_keyboard := buttons "zzz" |} ] |}).
Proof.
  apply (empty_reply_send_unguarded open_cfg expired_world (user_query "zzz" None)
           "zzz" None 0 (TokStr "") 0);
    first [reflexivity | discriminate].
Defined.

(** The one reply of a run that gets through. *)
Lemma sole_reply (cfg : Config) (w : World) (q : InlineQuery)
    (term : string) (ft : option string) (off : Z) (files : list Media.t)
    (no : offset_token) (total : Z) (ds : list InlineQueryResultCachedDocument)
    (s1 : state) :
  inline_users cfg q = true ->
  (truthy_opt_int (AUTH_CHANNEL cfg) = true -> is_subscribed w q = Ok true) ->
  parse_query (python w) (query q) = Ok (term, ft) ->
  parse_offset (python w) (offset q) = Ok off ->
  get_search_results w term ft 10 off = Ok (files, no, total) ->
  display_all cfg w 0%nat files init = (Ok ds, s1) ->
  exists r, sent (trace (snd (run cfg w q))) = [r] /\ Reply.results r = ds.
Proof.
  intros Ha Hsub Hp Ho Hs Hd.
  rewrite (run_passes cfg w q Ha Hsub).
  assert (Hfst : fst (display_all cfg w 0%nat files init) = Ok ds) by now rewrite Hd.
  destruct (search_and_respond_reply cfg w q term ft off files no total ds
              {| trace := if truthy_opt_int (AUTH_CHANNEL cfg)
                          then [CallIsSubscribed] else [];
                 heap := [] |}
              eq_refl Hp Ho Hs Hfst) as (r & Hr & _ & Hres & _).
  exists r. split; [|exact Hres]. rewrite Hr. cbn [trace].
  now destruct (truthy_opt_int (AUTH_CHANNEL cfg)).
Qed.

(** ** The results *)

Section Results.

Variable cfg : Config.
Variable w : World.

(** What one iteration builds, when it returns. *)
Lemma display_inv (rm : markup_ref) (file : Media.t) (s s' : state)
    (d : InlineQueryResultCachedDocument) :
  display cfg w rm file s = (Ok d, s') ->
  exists size c,
    get_size w (Media.file_size file) = Ok size
    /\ d = document rm file size c.
Proof.
  unfold display, bind, lift, ret.
  destruct (get_size w (Media.file_size file)) as [size|e|]; try discriminate.
  destruct (template_step cfg w _ _ _ s) as [[c|e|] s2]; try discriminate.
  intros [= <- _]. eauto.
Qed.

Lemma display_all_mirror (rm : markup_ref) (files : list Media.t) :
  forall (s s' : state) (ds : list InlineQueryResultCachedDocument),
    display_all cfg w rm files s = (Ok ds, s') ->
    Forall2 (fun file d =>
               exists size c,
                 get_size w (Media.file_size file) = Ok size
                 /\ d = document rm file size c)
            files ds.
Proof.
  induction files as [|file rest IH]; simpl; intros s s' ds.
  - intros [= <- _]. constructor.
  - unfold bind at 1.
    destruct (display cfg w rm file s) as [[d|e|] s2] eqn:Hd; try discriminate.
    unfold bind.
    destruct (display_all cfg w rm rest s2) as [[ds'|e|] s3] eqn:Hr; try discriminate.
    intros [= <- _]. constructor; [exact (display_inv _ _ _ _ _ Hd) | eauto].
Qed.

(** The loop stops at the first file whose size cannot be formatted. *)
Lemma display_all_size_failure (rm : markup_ref) (files : list Media.t)
    (file : Media.t) (e : exn) :
  In file files ->
  get_size w (Media.file_size file) = Raise e ->
  forall (s s' : state) (ds : list InlineQueryResultCachedDocument),
    display_all cfg w rm files s <> (Ok ds, s').
Proof.
  intros Hin Hsize s s' ds Hall.
  pose proof (display_all_mirror rm files s s' ds Hall) as Hm.
  clear Hall. induction Hm as [|f d fs ds' (size & c & Hf & _) _ IH]; [destruct Hin|].
  destruct Hin as [-> | Hin]; [congruence | auto].
Qed.

End Results.

(** X10.  The results of the reply mirror the files of the search, one for one
    and in the same order: each result carries the title and the file id of its
    file, the description "Size: ..., Type: ..." built from the size string
    and the file type (the text None standing for a missing one), and the
    keyboard of the query. *)
Theorem results_mirror_files (cfg : Config) (w : World) (q : InlineQuery)
    (term : string) (ft : option string) (off : Z) (files : list Media.t)
    (no : offset_token) (total : Z) (ds : list InlineQueryResultCachedDocument)
    (s1 : state) :
  inline_users cfg q = true ->
  (truthy_opt_int (AUTH_CHANNEL cfg) = true -> is_subscribed w q = Ok true) ->
  parse_query (python w) (query q) = Ok (term, ft) ->
  parse_offset (python w) (offset q) = Ok off ->
  get_search_results w term ft 10 off = Ok (files, no, total) ->
  display_all cfg w 0%nat files init = (Ok ds, s1) ->
  exists r,
    sent (trace (snd (run cfg w q))) = [r]
    /\ Forall2 (fun file d =>
                  title d = Media.file_name file
                  /\ document_file_id d = Media.file_id file
                  /\ reply_markup d = 0%nat
                  /\ exists size,
                       get_size w (Media.file_size file) = Ok size
                       /\ description d
                          = "Size: " ++ of_opt size ++ nl ++ "Type: "
                            ++ of_opt (Media.file_type file))
               files (Reply.results r).
Proof.
  intros Ha Hsub Hp Ho Hs Hd.
  destruct (sole_reply cfg w q term ft off files no total ds s1
              Ha Hsub Hp Ho Hs Hd) as (r & Hsent & Hres).
  exists r. split; [exact Hsent|]. rewrite Hres.
  pose proof (display_all_mirror cfg w 0%nat files _ _ _ Hd) as Hm.
  revert Hm. apply Forall2_impl. intros file d (size & c & Hf & ->).
  repeat split. exists size. split; [exact Hf | reflexivity].
Qed.

Lemma results_mirror_files_witness :
  exists r,
    sent (trace (snd (run open_cfg batman_world batman_query))) = [r]
    /\ Forall2 (fun file d =>
                  title d = Media.file_name file
                  /\ document_file_id d = Media.file_id file
                  /\ reply_markup d = 0%nat
                  /\ exists size,
                       get_size batman_world (Media.file_size file) = Ok size
                       /\ description d
                          = "Size: " ++ of_opt size ++ nl ++ "Type: "
                            ++ of_opt (Media.file_type file))
               [batman_1; batman_2] (Reply.results r).
Proof.
  apply (results_mirror_files open_cfg batman_world batman_query "batman" (Some "mkv")
           0 [batman_1; batman_2] (TokInt 10) 57 batman_results init);
    first [reflexivity | discriminate].
Defined.

(** X11.  When the size formatter fails on one of the files, the handler does
    not return normally and sends no reply at all, not even for the files
    before it: [get_size] is called outside any [try]. *)
Theorem size_failure_aborts (cfg : Config) (w : World) (q : InlineQuery)
    (term : string) (ft : option string) (off : Z) (files : list Media.t)
    (no : offset_token) (total : Z) (file : Media.t) (e : exn) :
  inline_users cfg q = true ->
  (truthy_opt_int (AUTH_CHANNEL cfg) = true -> is_subscribed w q = Ok true) ->
  parse_query (python w) (query q) = Ok (term, ft) ->
  parse_offset (python w) (offset q) = Ok off ->
  get_search_results w term ft 10 off = Ok (files, no, total) ->
  In file files ->
  get_size w (Media.file_size file) = Raise e ->
  fst (run cfg w q) <> Ok tt
  /\ sent (trace (snd (run cfg w q))) = [].
Proof.
  intros Ha Hsub Hp Ho Hs Hin Hsize.
  rewrite (run_passes cfg w q Ha Hsub).
  rewrite (search_and_respond_run cfg w q term ft off files no total _ Hp Ho Hs).
  cbn [heap List.length].
  destruct (logs_only_display_all cfg w 0%nat files) as (rd & tl & Htl & Hall).
  unfold bind. rewrite Hall.
  destruct rd as [ds|e'|].
  - now destruct (display_all_size_failure cfg w 0%nat files file e Hin Hsize
                    init (extend init tl) ds).
  - split; [discriminate|]. cbn [snd extend trace].
    rewrite !sent_app, (sent_logs tl Htl).
    now destruct (truthy_opt_int (AUTH_CHANNEL cfg)).
  - split; [discriminate|]. cbn [snd extend trace].
    rewrite !sent_app, (sent_logs tl Htl).
    now destruct (truthy_opt_int (AUTH_CHANNEL cfg)).
Qed.

Lemma size_failure_aborts_witness :
  fst (run open_cfg strict_size_world batman_query) <> Ok tt
  /\ sent (trace (snd (run open_cfg strict_size_world batman_query))) = [].
Proof.
  apply (size_failure_aborts open_cfg strict_size_world batman_query "batman"
           (Some "mkv") 0 [batman_1; sizeless] (TokInt 10) 57 sizeless
           (OtherException "float() argument must be a string or a number"));
    first [reflexivity | discriminate | (right; left; reflexivity)].
Defined.

(** X12.  With no caption template, or an empty one, the caption of a result
    is the caption of the file when it has one, the empty caption included;
    a file without caption gets its file name, and the text None when it has
    no name either. *)
Theorem caption_without_template (cfg : Config) (w : World) (rm : markup_ref)
    (file : Media.t) (size : option string) (s : state) :
  CUSTOM_FILE_CAPTION cfg = None \/ CUSTOM_FILE_CAPTION cfg = Some "" ->
  get_size w (Media.file_size file) = Ok size ->
  exists d,
    display cfg w rm file s = (Ok d, s)
    /\ caption d
       = match Media.caption file, Media.file_name file with
         | Some c, _ => c
         | None, Some name => name
         | None, None => "None"
         end.
Proof.
  intros Hc Hsize. eexists. split.
  - apply (display_run cfg w rm file size (Media.caption file) s s Hsize).
    unfold template_step. destruct Hc as [-> | ->]; reflexivity.
  - cbn [caption document]. unfold default_caption, of_opt.
    now destruct (Media.caption file), (Media.file_name file).
Qed.

Lemma caption_without_template_witness :
  exists d,
    display allow_cfg_zero_channel batman_world 0%nat sizeless init = (Ok d, init)
    /\ caption d
       = match Media.caption sizeless, Media.file_name sizeless with
         | Some c, _ => c
         | None, Some name => name
         | None, None => "None"
         end.
Proof.
  apply (caption_without_template allow_cfg_zero_channel batman_world 0%nat sizeless
           (Some "10 MB") init).
  - right. reflexivity.
  - reflexivity.
Defined.

(** ** The gates, again *)

(** X13.  A user the access gate admitted who is not subscribed to the
    configured channel gets one reply and no search: no results, cache time
    0, the prompt to subscribe with the parameter "subscribe".  The send is
    not guarded: its outcome is the outcome of the handler. *)
Theorem subscription_denial_reply (cfg : Config) (w : World) (q : InlineQuery) :
  inline_users cfg q = true ->
  truthy_opt_int (AUTH_CHANNEL cfg) = true ->
  is_subscribed w q = Ok false ->
  fst (run cfg w q) = send w not_subscribed
  /\ sent (trace (snd (run cfg w q))) = [not_subscribed]
  /\ searched (trace (snd (run cfg w q))) = false
  /\ heap (snd (run cfg w q)) = []
  /\ Reply.results not_subscribed = []
  /\ Reply.cache_time not_subscribed = 0
  /\ Reply.switch_pm_text not_subscribed
     = "You have to subscribe my channel to use the bot"
  /\ Reply.switch_pm_parameter not_subscribed = "subscribe".
Proof.
  intros Ha Hc Hs. unfold run, answer. rewrite Ha, Hc. cbn [negb].
  unfold bind at 1. unfold bind at 1. unfold emit at 1.
  unfold bind at 1. unfold lift at 1. rewrite Hs. cbn [ret negb].
  rewrite query_answer_run. repeat split.
Qed.

Lemma subscription_denial_reply_witness :
  fst (run channel_cfg unsubscribed_world (user_query "batman" None))
  = send unsubscribed_world not_subscribed
  /\ sent (trace (snd (run channel_cfg unsubscribed_world (user_query "batman" None))))
     = [not_subscribed]
  /\ searched (trace (snd (run channel_cfg unsubscribed_world (user_query "batman" None))))
     = false
  /\ heap (snd (run channel_cfg unsubscribed_world (user_query "batman" None))) = []
  /\ Reply.results not_subscribed = []
  /\ Reply.cache_time not_subscribed = 0
  /\ Reply.switch_pm_text not_subscribed
     = "You have to subscribe my channel to use the bot"
  /\ Reply.switch_pm_parameter not_subscribed = "subscribe".
Proof.
  apply (subscription_denial_reply channel_cfg unsubscribed_world
           (user_query "batman" None));
    reflexivity.
Defined.

(** X14.  With a non-empty allow-list the ban list is not read: the verdict
    is the same whatever [BANNED_USERS] holds, so a banned user who is on the
    allow-list is admitted. *)
Theorem allow_list_overrides_ban_list (cfg cfg' : Config) (q : InlineQuery) :
  AUTH_USERS cfg <> [] ->
  AUTH_USERS cfg' = AUTH_USERS cfg ->
  inline_users cfg' q = inline_users cfg q
  /\ (forall u,
        from_user q = Some u ->
        In (User.id u) (AUTH_USERS cfg) ->
        In (User.id u) (BANNED_USERS cfg) ->
        inline_users cfg q = true).
Proof.
  intros Hne Hsame. apply truthy_list_nonempty in Hne.
  unfold inline_users. rewrite Hsame, Hne. split; [reflexivity|].
  intros u -> Hin _. now apply mem_In.
Qed.

Lemma allow_list_overrides_ban_list_witness :
  inline_users C1_cfg_allow C1_query = true.
Proof.
  apply (proj2 (allow_list_overrides_ban_list C1_cfg_allow C1_cfg_allow C1_query
                  ltac:(discriminate) eq_refl)
           {| User.id := 12 |}).
  - reflexivity.
  - right. left. reflexivity.
  - left. reflexivity.
Defined.

(** ** The parser, again *)

Section ParserFacts.








End ParserFacts.



(** ** When the search is called *)

Lemma subscription_check_failure_model (cfg : Config) (w : World)
    (q : InlineQuery) (r : result bool) :
  inline_users cfg q = true ->
  truthy_opt_int (AUTH_CHANNEL cfg) = true ->
  is_subscribed w q = r ->
  (forall b, r <> Ok b) ->
  snd (run cfg w q) = {| trace := [CallIsSubscribed]; heap := [] |}.
Proof.
  intros Ha Hc Hs Hr. unfold run, answer. rewrite Ha, Hc. simpl.
  unfold bind, emit, lift. simpl. rewrite Hs.
  destruct r as [b|e|]; [now destruct (Hr b) | reflexivity..].
Qed.

Lemma filter_logs (f : event -> bool) (t : list event) :
  (forall e, f (LogException e) = false) ->
  forallb is_log t = true -> filter f t = [].
Proof.
  intros Hf Ht. rewrite <- (app_nil_r t). now rewrite (logs_filtered f t [] Hf Ht).
Qed.

Lemma respond_searches (cfg : Config) (w : World)
    (ds : list InlineQueryResultCachedDocument) (no : offset_token) (total : Z)
    (term : string) (s : state) :
  filter is_search (trace (snd (respond cfg w ds no total term s)))
  = filter is_search (trace s).
Proof.
  rewrite respond_run. cbv zeta. cbn [snd extend trace].
  rewrite filter_app. cbn [filter is_search].
  rewrite (filter_logs is_search (if truthy_list ds then _ else _));
    [now rewrite app_nil_r | reflexivity |].
  destruct (truthy_list ds); [|reflexivity].
  destruct (send w _) as [[]|e|]; try reflexivity. now destruct e.
Qed.

Lemma search_and_respond_searches (cfg : Config) (w : World) (q : InlineQuery)
    (s : state) :
  filter is_search (trace (snd (search_and_respond cfg w q s)))
  = (filter is_search (trace s)
     ++ match parse_query (python w) (query q), parse_offset (python w) (offset q) with
        | Ok (term, ft), Ok off => [CallSearch term ft 10 off]
        | _, _ => []
        end)%list.
Proof.
  destruct (parse_query_total (python w) (query q)) as (term & ft & Hp). rewrite Hp.
  destruct (parse_offset (python w) (offset q)) as [off|e|] eqn:Ho.
  2,3: rewrite (search_and_respond_stops cfg w q term ft s Hp);
       [now rewrite app_nil_r | intros off; rewrite Ho; discriminate].
  destruct (get_search_results w term ft 10 off) as [[[files no] total]|e|] eqn:Hs.
  2,3: rewrite (search_and_respond_search_fails cfg w q term ft off s Hp Ho);
       [cbn [trace]; now rewrite filter_app | rewrite Hs; discriminate].
  rewrite (search_and_respond_run cfg w q term ft off files no total s Hp Ho Hs).
  destruct (logs_only_display_all cfg w (List.length (heap s)) files)
    as (rd & tl & Htl & Hall).
  unfold bind. rewrite Hall.
  assert (Hlogs : filter is_search tl = []) by now apply filter_logs.
  destruct rd as [ds|e|]; cbn [snd extend trace].
  - rewrite respond_searches. cbn [extend trace].
    rewrite !filter_app, Hlogs. now rewrite app_nil_r.
  - rewrite !filter_app, Hlogs. now rewrite app_nil_r.
  - rewrite !filter_app, Hlogs. now rewrite app_nil_r.
Qed.

(** X16.  The search is called exactly when the access gate admits the user,
    the subscription gate is off or finds the user subscribed, and the offset
    token is read; it is then called once, with the parsed term and file type,
    10 as the number of results and the parsed offset, whatever happens
    afterwards. *)
Theorem search_call (cfg : Config) (w : World) (q : InlineQuery) :
  filter is_search (trace (snd (run cfg w q)))
  = if inline_users cfg q
       && (negb (truthy_opt_int (AUTH_CHANNEL cfg))
           || match is_subscribed w q with Ok b => b | _ => false end)
    then match parse_query (python w) (query q), parse_offset (python w) (offset q) with
         | Ok (term, ft), Ok off => [CallSearch term ft 10 off]
         | _, _ => []
         end
    else [].
Proof.
  destruct (inline_users cfg q) eqn:Ha; cbn [andb].
  2:{ now rewrite (run_denied cfg w q Ha). }
  destruct (truthy_opt_int (AUTH_CHANNEL cfg)) eqn:Hc; cbn [negb orb].
  2:{ rewrite (run_admitted cfg w q Ha Hc). now rewrite search_and_respond_searches. }
  destruct (is_subscribed w q) as [[|]|e|] eqn:Hs.
  - rewrite (run_subscribed cfg w q Ha Hc Hs). now rewrite search_and_respond_searches.
  - now rewrite (run_unsubscribed cfg w q Ha Hc Hs).
  - rewrite (subscription_check_failure_model cfg w q (Raise e) Ha Hc Hs);
      [reflexivity | discriminate].
  - rewrite (subscription_check_failure_model cfg w q Unmodelled Ha Hc Hs);
      [reflexivity | discriminate].
Qed.

(** ** Where a caption comes from *)

(** X17.  The caption of a result has one of two sources.  Either the template
    is configured and formats, and the caption is the formatted text as it is,
    empty or not; or the caption is the caption of the file, replaced by the
    file name when the file has none. *)
Theorem caption_sources (cfg : Config) (w : World) (rm : markup_ref)
    (file : Media.t) (s s' : state) (d : InlineQueryResultCachedDocument) :
  display cfg w rm file s = (Ok d, s') ->
  exists size,
    get_size w (Media.file_size file) = Ok size
    /\ ((exists template,
           CUSTOM_FILE_CAPTION cfg = Some template
           /\ template <> ""
           /\ py_format (python w) template
                [ ("file_name", or_empty (Media.file_name file));
                  ("file_size", or_empty size);
                  ("file_caption", or_empty (Media.caption file)) ]
              = Ok (caption d))
        \/ caption d = default_caption file (Media.caption file)).
Proof.
  unfold display, bind, lift, ret.
  destruct (get_size w (Media.file_size file)) as [size|e|] eqn:Hsize; try discriminate.
  unfold template_step.
  destruct (CUSTOM_FILE_CAPTION cfg) as [template|] eqn:Hc.
  2:{ intros [= <- _]. exists size. split; [reflexivity | now right]. }
  destruct (truthy template) eqn:Ht.
  2:{ intros [= <- _]. exists size. split; [reflexivity | now right]. }
  unfold try_except, bind, lift, ret.
  destruct (py_format (python w) template _) as [out|e|] eqn:Hf.
  - intros [= <- _]. exists size. split; [reflexivity|]. left.
    exists template. split; [reflexivity|]. split; [now apply truthy_nonempty|].
    exact Hf.
  - rewrite (py_format_raises _ _ _ _ Hf). unfold emit.
    intros [= <- _]. exists size. split; [reflexivity | now right].
  - discriminate.
Qed.

Lemma caption_sources_witness :
  exists size,
    get_size batman_world (Media.file_size sizeless) = Ok size
    /\ ((exists template,
           CUSTOM_FILE_CAPTION (caption_cfg "{file_caption}") = Some template
           /\ template <> ""
           /\ py_format (python batman_world) template
                [ ("file_name", or_empty (Media.file_name sizeless));
                  ("file_size", or_empty size);
                  ("file_caption", or_empty (Media.caption sizeless)) ]
              = Ok (caption (document 0%nat sizeless (Some "10 MB") "")))
        \/ caption (document 0%nat sizeless (Some "10 MB") "")
           = default_caption sizeless (Media.caption sizeless)).
Proof.
  apply (caption_sources (caption_cfg "{file_caption}") batman_world 0%nat sizeless
           init init (document 0%nat sizeless (Some "10 MB") "")).
  reflexivity.
Defined.
